(** * The recommendation engine of the football live analytics service

    A shallow embedding of [main.py]: the heuristic probability model
    ([heuristic_probs]), the expected value ([ev]), the Kelly stake
    ([kelly_fraction]) and the request handler ([recommendation]).

    Number model.  Python [int]s are [Z].  Python [float]s are read as real
    numbers ([R]) with exact arithmetic: the rounding error of binary64 is
    not part of the model.  The running code differs from it by a few units
    in the last place of each intermediate value, so the theorems about
    returned numbers are stated where that cannot show: as inequalities with
    room to spare, as values away from a rounding tie, or to within a
    thousandth.  [math.exp] raises [OverflowError] above 709.78; the model is
    of the calls that return, and theorems that need a result of [sigmoid]
    bound the possession.  [None] is [option]'s [None].  A Python [dict]
    with string keys is an association list in insertion order. *)

From Stdlib Require Import Reals Lra Lia ZArith List String Bool.
Import ListNotations.
Local Open Scope string_scope.
Local Open Scope list_scope.
Local Open Scope R_scope.

(** ** Python values *)

Definition dict (V : Type) : Type := list (string * V).

Fixpoint dict_get {V : Type} (k : string) (d : dict V) : option V :=
  match d with
  | [] => None
  | (k', v) :: d' => if String.eqb k k' then Some v else dict_get k d'
  end.

Definition dict_values {V : Type} (d : dict V) : list V := map snd d.

Definition dict_keys {V : Type} (d : dict V) : list string := map fst d.

(** [{k: f(v) for k, v in d.items()}] *)
Definition dict_comprehension {V W : Type} (f : V -> W) (d : dict V) : dict W :=
  map (fun kv => (fst kv, f (snd kv))) d.

(** Comparisons of floats as booleans. *)
Definition Rleb (x y : R) : bool := if Rle_dec x y then true else false.

Definition Rltb (x y : R) : bool := if Rlt_dec x y then true else false.

(** The truth value of a float: every float but zero is true. *)
Definition truthy (x : R) : bool := if Req_dec_T x 0 then false else true.

(** [x or 0] for an optional float [x]: [None] and [0.0] are false. *)
Definition or_0 (x : option R) : R :=
  match x with
  | Some v => if truthy v then v else 0
  | None => 0
  end.

(** [max(a, b)] and [min(a, b)] of two floats. *)
Definition max (a b : R) : R := Rmax a b.

Definition min (a b : R) : R := Rmin a b.

(** Rounding to the nearest integer, ties to the even one. *)
Definition round_half_even (x : R) : Z :=
  let f := Zfloor x in
  let r := x - IZR f in
  if Rlt_dec r (1 / 2) then f
  else if Rlt_dec (1 / 2) r then (f + 1)%Z
  else if Z.even f then f else (f + 1)%Z.

(** [round(x, ndigits)] of a float, on the exact value.  Where the exact
    value is a tie between two neighbours the code, which rounds the binary64
    value, may return either. *)
Definition round (x : R) (ndigits : nat) : R :=
  IZR (round_half_even (x * 10 ^ ndigits)) / 10 ^ ndigits.

(** ** The data model *)

Inductive Momentum : Type := home | away | balanced.

Definition Momentum_eqb (a b : Momentum) : bool :=
  match a, b with
  | home, home | away, away | balanced, balanced => true
  | _, _ => false
  end.

Module LiveStats.
Record t : Type := Build {
  minute : Z;
  score_home : Z;
  score_away : Z;
  shots_total : Z;
  shots_box : Z;
  shots_on : Z;
  big_chances : Z;
  corners : Z;
  possession_home : Z;
  possession_away : Z;
  momentum : Momentum;
  xg_sum : option R
}.
End LiveStats.

Module OddsInput.
Record t : Type := Build {
  over25 : option R;
  over05_ht : option R;
  btts : option R;
  oneXtwo : option (dict R)
}.
End OddsInput.

Module RecRequest.
Record t : Type := Build {
  stats : LiveStats.t;
  odds : OddsInput.t;
  models_selected : list string;
  all_models : bool
}.

Definition default_models_selected : list string :=
  ["bayes_goals"; "bivar_poisson"; "bayes_xg"; "ensemble"; "xt"; "xpts"].
End RecRequest.

Module RecOutput.
Record t : Type := Build {
  p_over25 : R;
  p_goal_ht : R;
  p_btts : R;
  p_1x2 : dict R;
  ev : dict (option R);
  min_odds : dict R;
  stake_kelly : dict R;
  rationale : list string;
  models_used : list string
}.
End RecOutput.

(** The dictionary that [heuristic_probs] returns, one field per key. *)
Module Probs.
Record t : Type := Build {
  over25 : R;
  goal_ht : R;
  btts : R;
  oneXtwo : dict R
}.
End Probs.

(** ** The probability model *)

(** The logistic function where [math.exp] returns, that is for
    [x >= -709.78]. *)
Definition sigmoid (x : R) : R := 1 / (1 + exp (- x)).

Definition clip01 (x : R) : R := max 0.01 (min 0.95 x).

(** [s.xg_sum and s.xg_sum >= 0.9] as a condition. *)
Definition xg_high (xg : option R) : bool :=
  match xg with
  | Some v => truthy v && Rleb 0.9 v
  | None => false
  end.

Definition over_raw (s : LiveStats.t) : R :=
  0.30 + 0.02 * IZR (LiveStats.shots_total s) + 0.04 * IZR (LiveStats.shots_box s)
  + 0.08 * IZR (LiveStats.big_chances s)
  + (if xg_high (LiveStats.xg_sum s) then 0.20 else 0.0).

Definition goal_ht_raw (s : LiveStats.t) : R :=
  0.15 + 0.03 * IZR (LiveStats.shots_box s) + 0.03 * IZR (LiveStats.corners s)
  + (if negb (Momentum_eqb (LiveStats.momentum s) balanced) then 0.07 else 0.0).

Definition btts_raw (s : LiveStats.t) : R :=
  0.25 + 0.05 * IZR (if Momentum_eqb (LiveStats.momentum s) balanced then 1 else 0)
  + 0.02 * IZR (LiveStats.shots_on s).

(** The three strengths after [p1, p2, p_draw = p1/total, p2/total, p_draw/total]. *)
Definition normalized_1x2 (s : LiveStats.t) : R * R * R :=
  let p1 := sigmoid (IZR (LiveStats.possession_home s - 50) / 10) in
  let p2 := sigmoid (IZR (LiveStats.possession_away s - 50) / 10) in
  let p_draw := 0.20 in
  let total := p1 + p2 + p_draw in
  (p1 / total, p2 / total, p_draw / total).

Definition heuristic_probs (s : LiveStats.t) : Probs.t :=
  let '(p1, p2, p_draw) := normalized_1x2 s in
  Probs.Build
    (clip01 (over_raw s))
    (clip01 (goal_ht_raw s))
    (clip01 (btts_raw s))
    [("1", clip01 p1); ("X", clip01 p_draw); ("2", clip01 p2)].

(** ** Expected value and Kelly stake *)

Definition ev (prob odds : option R) : option R :=
  match prob, odds with
  | Some p, Some o => Some (p * o - 1)
  | _, _ => None
  end.

Definition kelly_fraction (prob odds : option R) : R :=
  match prob, odds with
  | Some p, Some o =>
      let b := o - 1 in
      let edge := if Rltb 0 b then p - (1 - p) / b else -1 in
      max 0.0 (min 0.5 (if Rltb 0 b then edge / b else 0.0))
  | _, _ => 0.0
  end.

(** ** The request handler *)

Definition min_odds : dict R :=
  [("over25", 1.70); ("goal_ht", 1.60); ("btts", 1.75)].

Definition evs (base : Probs.t) (odds : OddsInput.t) : dict (option R) :=
  [("over25", ev (Some (Probs.over25 base)) (OddsInput.over25 odds));
   ("goal_ht", ev (Some (Probs.goal_ht base)) (OddsInput.over05_ht odds));
   ("btts", ev (Some (Probs.btts base)) (OddsInput.btts odds))].

Definition stakes (base : Probs.t) (odds : OddsInput.t) : dict R :=
  [("over25",
    round (0.25 * kelly_fraction (Some (Probs.over25 base))
                                 (Some (or_0 (OddsInput.over25 odds)))) 3);
   ("goal_ht",
    round (0.25 * kelly_fraction (Some (Probs.goal_ht base))
                                 (Some (or_0 (OddsInput.over05_ht odds)))) 3);
   ("btts",
    round (0.20 * kelly_fraction (Some (Probs.btts base))
                                 (Some (or_0 (OddsInput.btts odds)))) 3)].

Definition msg_over25 : string :=
  "Volume e qualità alte per Over 2.5 (>=9 tiri, >=5 in area).".

Definition msg_big_chance : string := "Almeno una big chance creata.".

Definition msg_goal_ht : string :=
  "Finestra 25–35 con pressione: favorevole a Gol 1T.".

Definition msg_btts : string := "Pressione simmetrica: BTTS favorito.".

Definition msg_fallback : string :=
  "Segnali insufficienti: attendere nuovo picco di pressione.".

(** The four [if ...: rationale.append(...)] statements, in their order. *)
Definition rationale_appends (s : LiveStats.t) : list string :=
  let rationale : list string := [] in
  let rationale :=
    if (9 <=? LiveStats.shots_total s)%Z && (5 <=? LiveStats.shots_box s)%Z
    then rationale ++ [msg_over25] else rationale in
  let rationale :=
    if (1 <=? LiveStats.big_chances s)%Z
    then rationale ++ [msg_big_chance] else rationale in
  let rationale :=
    if ((25 <=? LiveStats.minute s)%Z && (LiveStats.minute s <=? 35)%Z)
       && (2 <=? LiveStats.corners s)%Z && (3 <=? LiveStats.shots_box s)%Z
    then rationale ++ [msg_goal_ht] else rationale in
  let rationale :=
    if Momentum_eqb (LiveStats.momentum s) balanced && (2 <=? LiveStats.shots_on s)%Z
    then rationale ++ [msg_btts] else rationale in
  rationale.

(** [l or default] for a list: the empty list is false. *)
Definition list_or {A : Type} (l default : list A) : list A :=
  match l with
  | [] => default
  | _ :: _ => l
  end.

Definition all_model_labels : list string :=
  ["bayes_goals"; "bivar_poisson"; "bayes_xg"; "ensemble"; "xt"; "xpts"; "kelly"].

Definition recommendation (req : RecRequest.t) : RecOutput.t :=
  let s := RecRequest.stats req in
  let base := heuristic_probs s in
  let rationale := rationale_appends s in
  let models_used :=
    if negb (RecRequest.all_models req) then RecRequest.models_selected req
    else all_model_labels in
  RecOutput.Build
    (round (Probs.over25 base) 3)
    (round (Probs.goal_ht base) 3)
    (round (Probs.btts base) 3)
    (dict_comprehension (fun v => round v 3) (Probs.oneXtwo base))
    (dict_comprehension (fun v => match v with
                                  | Some x => Some (round x 3)
                                  | None => None
                                  end)
                        (evs base (RecRequest.odds req)))
    min_odds
    (stakes base (RecRequest.odds req))
    (list_or rationale [msg_fallback])
    models_used.

(** The statistics that [live_stats] returns. *)
Definition live_stats : LiveStats.t :=
  LiveStats.Build 27 0 0 2 1 1 0 1 52 48 balanced (Some 0.25).

(** ** The vocabulary of the specification *)

(** The three markets a stake and an expected value are given for. *)
Inductive Market : Type := Over25 | GoalHT | BTTS.

Definition market_key (m : Market) : string :=
  match m with
  | Over25 => "over25"
  | GoalHT => "goal_ht"
  | BTTS => "btts"
  end.

Definition market_prob (base : Probs.t) (m : Market) : R :=
  match m with
  | Over25 => Probs.over25 base
  | GoalHT => Probs.goal_ht base
  | BTTS => Probs.btts base
  end.

Definition market_odds (odds : OddsInput.t) (m : Market) : option R :=
  match m with
  | Over25 => OddsInput.over25 odds
  | GoalHT => OddsInput.over05_ht odds
  | BTTS => OddsInput.btts odds
  end.

Definition safety_multiplier (m : Market) : R :=
  match m with
  | Over25 => 0.25
  | GoalHT => 0.25
  | BTTS => 0.20
  end.

(** Clamping by cases: below the floor the floor, above the ceiling the
    ceiling. *)
Definition clamp (lo hi x : R) : R :=
  if Rltb x lo then lo else if Rltb hi x then hi else x.

Definition kelly_edge (p o : R) : R := p - (1 - p) / (o - 1).

Definition kelly_raw (p o : R) : R := kelly_edge p o / (o - 1).



(** The largest stake of a market: the multiplier times the clamp's 0.5. *)
Definition stake_bound (m : Market) : R :=
  match m with
  | Over25 => 0.125
  | GoalHT => 0.125
  | BTTS => 0.10
  end.

(** Odds that give no positive net odds: absent, zero, or at most 1. *)
Definition no_net_odds (o : option R) : Prop :=
  match o with
  | None => True
  | Some x => x = 0 \/ x - 1 <= 0
  end.

(** The over-2.5 probability as the specification words it. *)
Definition over25_spec (s : LiveStats.t) : R :=
  clamp 0.01 0.95
    (0.30 + 0.02 * IZR (LiveStats.shots_total s) + 0.04 * IZR (LiveStats.shots_box s)
     + 0.08 * IZR (LiveStats.big_chances s)
     + match LiveStats.xg_sum s with
       | Some v => if Rleb 0.9 v then 0.20 else 0
       | None => 0
       end).

(** The four threshold rules of the rationale, in their fixed order. *)
Definition rule_over25 (s : LiveStats.t) : bool :=
  (9 <=? LiveStats.shots_total s)%Z && (5 <=? LiveStats.shots_box s)%Z.

Definition rule_big_chance (s : LiveStats.t) : bool :=
  (1 <=? LiveStats.big_chances s)%Z.

Definition rule_goal_ht (s : LiveStats.t) : bool :=
  (25 <=? LiveStats.minute s)%Z && (LiveStats.minute s <=? 35)%Z
  && (2 <=? LiveStats.corners s)%Z && (3 <=? LiveStats.shots_box s)%Z.

Definition rule_btts (s : LiveStats.t) : bool :=
  Momentum_eqb (LiveStats.momentum s) balanced && (2 <=? LiveStats.shots_on s)%Z.

Definition rationale_rules : list ((LiveStats.t -> bool) * string) :=
  [(rule_over25, msg_over25); (rule_big_chance, msg_big_chance);
   (rule_goal_ht, msg_goal_ht); (rule_btts, msg_btts)].

(** The strings of the rules that fire, each rule looked at on its own. *)
Definition fired (s : LiveStats.t) : list string :=
  map snd (filter (fun r => fst r s) rationale_rules).

(** ** Example requests *)

Definition no_odds : OddsInput.t := OddsInput.Build None None None None.

(** [live_stats] with no odds, the other fields at their defaults. *)
Definition live_request : RecRequest.t :=
  RecRequest.Build live_stats no_odds RecRequest.default_models_selected true.

(** A side in control with a short price on over 2.5. *)
Definition busy_stats : LiveStats.t :=
  LiveStats.Build 30 1 0 10 5 3 1 4 55 45 home None.

Definition short_odds : OddsInput.t := OddsInput.Build (Some 1.5) None None None.

Definition busy_request : RecRequest.t :=
  RecRequest.Build busy_stats short_odds RecRequest.default_models_selected true.

Definition poss_stats (h a : Z) : LiveStats.t :=
  LiveStats.Build 27 0 0 2 1 1 0 1 h a balanced (Some 0.25).

Definition poss_request (h a : Z) : RecRequest.t :=
  RecRequest.Build (poss_stats h a) no_odds RecRequest.default_models_selected true.

(** The sum of a distribution's values. *)
Definition total (l : list R) : R := fold_right Rplus 0 l.

(** ** Integer bounds for the exponential

    [(1 + x / 2^k) ^ (2^k) <= exp x], evaluated on integers scaled by 2^60
    with every square rounded down. *)

Definition scale : Z := 2 ^ 60.

Fixpoint sq_down (k : nat) (m : Z) : Z :=
  match k with
  | O => m
  | S k' => sq_down k' (m * m / scale)
  end.

Definition exp_start (k : nat) (n d : Z) : Z :=
  (scale + n * scale / (d * 2 ^ Z.of_nat k))%Z.

(** At most [scale * exp (n / d)]. *)
Definition exp_lower (k : nat) (n d : Z) : Z := sq_down k (exp_start k n d).

(** [a / c < exp (n / d)], decided on integers. *)
Definition exp_gt_check (k : nat) (n d a c : Z) : bool :=
  (0 <? d)%Z && (0 <? c)%Z && (0 <=? exp_start k n d)%Z
  && (a * scale <? c * exp_lower k n d)%Z.

(** [exp (n / d) < b / c], decided on integers through [exp (- n / d)]. *)
Definition exp_lt_check (k : nat) (n d b c : Z) : bool :=
  (0 <? d)%Z && (0 <? c)%Z && (0 <=? exp_start k (- n) d)%Z
  && (0 <? exp_lower k (- n) d)%Z
  && (c * scale <? b * exp_lower k (- n) d)%Z.

(** ** Further requests *)

(** The same statistics with the two possessions exchanged. *)
Definition swap_possession (s : LiveStats.t) : LiveStats.t :=
  LiveStats.Build
    (LiveStats.minute s) (LiveStats.score_home s) (LiveStats.score_away s)
    (LiveStats.shots_total s) (LiveStats.shots_box s) (LiveStats.shots_on s)
    (LiveStats.big_chances s) (LiveStats.corners s)
    (LiveStats.possession_away s) (LiveStats.possession_home s)
    (LiveStats.momentum s) (LiveStats.xg_sum s).

(** The live statistics with a price of 2.0 on over 2.5. *)
Definition even_money_request : RecRequest.t :=
  RecRequest.Build live_stats (OddsInput.Build (Some 2) None None None)
    RecRequest.default_models_selected true.

(** The rationale as a function of which rules fire. *)
Definition rationale_for (b1 b2 b3 b4 : bool) : list string :=
  list_or ((if b1 then [msg_over25] else [])
           ++ (if b2 then [msg_big_chance] else [])
           ++ (if b3 then [msg_goal_ht] else [])
           ++ (if b4 then [msg_btts] else []))
          [msg_fallback].

(** ** The tick stream *)

(** The payload [{"fixture_id": ..., "minute": ..., "event": ...}]. *)
Module Tick.
Record t : Type := Build {
  fixture_id : string;
  minute : Z;
  event : string
}.
End Tick.

(** What an awaited call on the socket does: it completes, it raises an
    [Exception], or it raises a [BaseException] that is no [Exception], such
    as [asyncio.CancelledError]. *)
Inductive Outcome : Type := completes | raises | cancelled.

(** Where the handler is once the socket's answers are used up. *)
Inductive StreamEnd : Type :=
| in_loop (t : Z)
| returned (t : Z)
| propagated.

(** The [while True] loop under [try ... except Exception: pass]: the payloads
    handed to [send_json], in order, for the given outcomes of the successive
    sends. *)
Fixpoint stream_loop (fixture_id : string) (t : Z) (sends : list Outcome)
  : list Tick.t * StreamEnd :=
  match sends with
  | [] => ([], in_loop t)
  | completes :: sends' =>
      let payload := Tick.Build fixture_id (20 + t) "tick" in
      let '(sent, e) := stream_loop fixture_id (t + 1) sends' in
      (payload :: sent, e)
  | raises :: _ =>
      let payload := Tick.Build fixture_id (20 + t) "tick" in
      ([payload], returned t)
  | cancelled :: _ =>
      let payload := Tick.Build fixture_id (20 + t) "tick" in
      ([payload], propagated)
  end.

(** [ws.accept()] is awaited outside the [try]. *)
Definition stream (accept : Outcome) (fixture_id : string) (sends : list Outcome)
  : list Tick.t * StreamEnd :=
  match accept with
  | raises | cancelled => ([], propagated)
  | completes => let t := 0%Z in stream_loop fixture_id t sends
  end.

(** The first [n] ticks of a fixture from counter [t] on. *)
Definition ticks (fixture_id : string) (t : Z) (n : nat) : list Tick.t :=
  map (fun k => Tick.Build fixture_id (20 + (t + Z.of_nat k)) "tick") (seq 0 n).

(** * Properties *)

(** ** Rounding *)

Lemma round_half_even_bounds (x : R) :
  (Zfloor x <= round_half_even x <= Zfloor x + 1)%Z.
Proof.
  unfold round_half_even.
  destruct (Rlt_dec (x - IZR (Zfloor x)) (1 / 2)); [lia|].
  destruct (Rlt_dec (1 / 2) (x - IZR (Zfloor x))); [lia|].
  destruct (Z.even (Zfloor x)); lia.
Qed.

Lemma round_half_even_IZR (n : Z) : round_half_even (IZR n) = n.
Proof.
  unfold round_half_even. rewrite ZfloorZ.
  destruct (Rlt_dec (IZR n - IZR n) (1 / 2)) as [_|H]; [reflexivity|].
  exfalso. apply H. lra.
Qed.

Lemma round_half_even_le (x y : R) :
  x <= y -> (round_half_even x <= round_half_even y)%Z.
Proof.
  intros Hxy.
  pose proof (Zfloor_le x y Hxy) as Hf.
  destruct (Z.eq_dec (Zfloor x) (Zfloor y)) as [E|NE].
  - unfold round_half_even. rewrite E.
    destruct (Rlt_dec (x - IZR (Zfloor y)) (1 / 2)) as [Hx|Hx];
      destruct (Rlt_dec (y - IZR (Zfloor y)) (1 / 2)) as [Hy|Hy];
      try lia; try lra.
    + destruct (Rlt_dec (1 / 2) (y - IZR (Zfloor y))); [lia|].
      destruct (Z.even (Zfloor y)); lia.
    + destruct (Rlt_dec (1 / 2) (x - IZR (Zfloor y))) as [Hx'|Hx'];
        destruct (Rlt_dec (1 / 2) (y - IZR (Zfloor y))) as [Hy'|Hy'];
        try lia; try lra.
      destruct (Z.even (Zfloor y)); lia.
  - pose proof (round_half_even_bounds x). pose proof (round_half_even_bounds y). lia.
Qed.

Lemma pow10_3 : 10 ^ 3 = 1000.
Proof. simpl. lra. Qed.

(** A value with at most three decimals is left as it is. *)
Lemma round3_grid (n : Z) : round (IZR n / 1000) 3 = IZR n / 1000.
Proof.
  unfold round. rewrite pow10_3.
  replace (IZR n / 1000 * 1000) with (IZR n) by lra.
  now rewrite round_half_even_IZR.
Qed.

Lemma round3_le (x y : R) : x <= y -> round x 3 <= round y 3.
Proof.
  intros H. unfold round. rewrite pow10_3.
  assert (round_half_even (x * 1000) <= round_half_even (y * 1000))%Z as Hz
    by (apply round_half_even_le; lra).
  apply IZR_le in Hz. lra.
Qed.

Lemma round3_between (a b : Z) (x : R) :
  IZR a / 1000 <= x <= IZR b / 1000 ->
  IZR a / 1000 <= round x 3 <= IZR b / 1000.
Proof.
  intros [Ha Hb]. split.
  - rewrite <- (round3_grid a). now apply round3_le.
  - rewrite <- (round3_grid b). now apply round3_le.
Qed.

(** [round] picks the integer its argument is within a half of. *)
Lemma round3_nearest (n : Z) (x : R) :
  IZR n - 1 / 2 < x * 1000 < IZR n + 1 / 2 -> round x 3 = IZR n / 1000.
Proof.
  intros [Hlo Hhi]. unfold round. rewrite pow10_3. f_equal. f_equal.
  unfold round_half_even.
  pose proof (Zfloor_bound (x * 1000)) as [Hf1 Hf2].
  assert (Zfloor (x * 1000) = n \/ Zfloor (x * 1000) = (n - 1)%Z) as [E|E].
  { assert (n - 1 <= Zfloor (x * 1000))%Z.
    { apply Zfloor_lub. rewrite minus_IZR. lra. }
    assert (Zfloor (x * 1000) < n + 1)%Z.
    { apply lt_IZR. rewrite plus_IZR. lra. }
    lia. }
  - rewrite E in *.
    destruct (Rlt_dec (x * 1000 - IZR n) (1 / 2)); [reflexivity|lra].
  - rewrite E in *. rewrite minus_IZR in *.
    destruct (Rlt_dec (x * 1000 - (IZR n - 1)) (1 / 2)); [lra|].
    destruct (Rlt_dec (1 / 2) (x * 1000 - (IZR n - 1))); [lia|lra].
Qed.

Lemma round_half_even_error (y : R) :
  IZR (round_half_even y) - 1 / 2 <= y <= IZR (round_half_even y) + 1 / 2.
Proof.
  unfold round_half_even. pose proof (Zfloor_bound y) as [H1 H2].
  destruct (Rlt_dec (y - IZR (Zfloor y)) (1 / 2)); [lra|].
  destruct (Rlt_dec (1 / 2) (y - IZR (Zfloor y))); [rewrite plus_IZR; lra|].
  destruct (Z.even (Zfloor y)); [|rewrite plus_IZR]; lra.
Qed.

(** The rounded value is a whole number of thousandths, half a thousandth
    from its argument at most. *)
Lemma round3_close (x : R) :
  exists n : Z, round x 3 = IZR n / 1000 /\ Rabs (IZR n / 1000 - x) < 0.001.
Proof.
  exists (round_half_even (x * 1000)).
  unfold round. rewrite pow10_3. split; [reflexivity|].
  pose proof (round_half_even_error (x * 1000)) as [H1 H2].
  apply Rabs_def1; lra.
Qed.

(** ** Clamping *)

Lemma clip01_bounds (x : R) : 0.01 <= clip01 x <= 0.95.
Proof.
  unfold clip01, max, min, Rmax, Rmin.
  destruct (Rle_dec 0.95 x); destruct (Rle_dec 0.01 _); lra.
Qed.

Lemma clip01_cases (x : R) :
  (x < 0.01 /\ clip01 x = 0.01) \/
  (0.01 <= x <= 0.95 /\ clip01 x = x) \/
  (0.95 < x /\ clip01 x = 0.95).
Proof.
  unfold clip01, max, min, Rmax, Rmin.
  destruct (Rle_dec 0.95 x); destruct (Rle_dec 0.01 _); lra.
Qed.

Lemma round3_clip01_bounds (x : R) : 0.01 <= round (clip01 x) 3 <= 0.95.
Proof.
  pose proof (clip01_bounds x) as H.
  pose proof (round3_between 10 950 (clip01 x)) as R. lra.
Qed.

Lemma clip01_clamp (x : R) : clip01 x = clamp 0.01 0.95 x.
Proof.
  unfold clip01, clamp, max, min, Rmax, Rmin, Rltb.
  destruct (Rle_dec 0.95 x); destruct (Rle_dec 0.01 _);
    destruct (Rlt_dec x 0.01); destruct (Rlt_dec 0.95 x); lra.
Qed.

Lemma max_min_clamp (x : R) : max 0.0 (min 0.5 x) = clamp 0.0 0.5 x.
Proof.
  unfold clamp, max, min, Rmax, Rmin, Rltb.
  destruct (Rle_dec 0.5 x); destruct (Rle_dec 0.0 _);
    destruct (Rlt_dec x 0.0); destruct (Rlt_dec 0.5 x); lra.
Qed.

Lemma clamp_bounds (lo hi x : R) : lo <= hi -> lo <= clamp lo hi x <= hi.
Proof.
  intros H. unfold clamp, Rltb.
  destruct (Rlt_dec x lo); [lra|]. destruct (Rlt_dec hi x); lra.
Qed.

Lemma clamp_le (lo hi x y : R) : lo <= hi -> x <= y -> clamp lo hi x <= clamp lo hi y.
Proof.
  intros H Hxy. unfold clamp, Rltb.
  destruct (Rlt_dec x lo); destruct (Rlt_dec y lo);
    destruct (Rlt_dec hi x); destruct (Rlt_dec hi y); lra.
Qed.

(** ** The Kelly fraction *)

Lemma kelly_fraction_positive_net (p o : R) :
  0 < o - 1 -> kelly_fraction (Some p) (Some o) = clamp 0.0 0.5 (kelly_raw p o).
Proof.
  intros H. unfold kelly_fraction, kelly_raw, kelly_edge, Rltb.
  destruct (Rlt_dec 0 (o - 1)); [|contradiction].
  apply max_min_clamp.
Qed.

Lemma kelly_fraction_no_net (p o : R) :
  o - 1 <= 0 -> kelly_fraction (Some p) (Some o) = 0.
Proof.
  intros H. unfold kelly_fraction, Rltb.
  destruct (Rlt_dec 0 (o - 1)); [lra|].
  rewrite max_min_clamp. unfold clamp, Rltb.
  destruct (Rlt_dec 0.0 0.0); [lra|]. destruct (Rlt_dec 0.5 0.0); lra.
Qed.

Lemma kelly_fraction_range (prob odds : option R) :
  0 <= kelly_fraction prob odds <= 0.5.
Proof.
  destruct prob as [p|], odds as [o|]; simpl; try lra.
  rewrite max_min_clamp.
  pose proof (clamp_bounds 0.0 0.5
    (if Rltb 0 (o - 1)
     then (if Rltb 0 (o - 1) then p - (1 - p) / (o - 1) else -1) / (o - 1)
     else 0.0)). lra.
Qed.

Lemma kelly_raw_le (o p1 p2 : R) :
  0 < o - 1 -> p1 <= p2 -> kelly_raw p1 o <= kelly_raw p2 o.
Proof.
  intros Hb Hp. unfold kelly_raw, kelly_edge.
  assert (0 < / (o - 1)) as Hi by now apply Rinv_0_lt_compat.
  unfold Rdiv. apply Rmult_le_compat_r; [lra|].
  assert ((1 - p2) * / (o - 1) <= (1 - p1) * / (o - 1))
    by (apply Rmult_le_compat_r; lra).
  lra.
Qed.

Lemma or_0_of_positive_net (o : R) : 0 < o - 1 -> or_0 (Some o) = o.
Proof.
  intros H. unfold or_0, truthy. destruct (Req_dec_T o 0); [lra|reflexivity].
Qed.

Lemma or_0_no_net (o : option R) : no_net_odds o -> or_0 o - 1 <= 0.
Proof.
  destruct o as [x|]; simpl; [|lra].
  unfold truthy. destruct (Req_dec_T x 0); lra.
Qed.

(** What [stakes] holds under a market's key. *)
Lemma stake_kelly_lookup (req : RecRequest.t) (m : Market) :
  dict_get (market_key m) (RecOutput.stake_kelly (recommendation req)) =
  Some (round (safety_multiplier m *
               kelly_fraction
                 (Some (market_prob (heuristic_probs (RecRequest.stats req)) m))
                 (Some (or_0 (market_odds (RecRequest.odds req) m)))) 3).
Proof. destruct m; reflexivity. Qed.

Lemma evs_lookup (base : Probs.t) (odds : OddsInput.t) (m : Market) :
  dict_get (market_key m) (evs base odds) =
  Some (ev (Some (market_prob base m)) (market_odds odds m)).
Proof. destruct m; reflexivity. Qed.

Lemma round3_of_grid (x : R) (n : Z) : x = IZR n / 1000 -> round x 3 = x.
Proof. intros ->. apply round3_grid. Qed.

Lemma heuristic_probs_market (s : LiveStats.t) (m : Market) :
  market_prob (heuristic_probs s) m =
  clip01 match m with
         | Over25 => over_raw s
         | GoalHT => goal_ht_raw s
         | BTTS => btts_raw s
         end.
Proof. destruct m; reflexivity. Qed.

(** ** Stake sizing *)


Lemma busy_over25 : Probs.over25 (heuristic_probs busy_stats) = 0.78.
Proof.
  change (clip01 (over_raw busy_stats) = 0.78).
  assert (over_raw busy_stats = 0.78) as -> by (unfold over_raw; simpl; lra).
  destruct (clip01_cases 0.78) as [[? ?]|[[? ?]|[? ?]]]; lra.
Qed.




(** C5: the stake of a market is exactly 0.0 when the market's odds are
    absent, or zero, or give net odds o - 1 <= 0, whatever the probability. *)
Theorem stake_zero_without_net_odds (req : RecRequest.t) (m : Market) :
  no_net_odds (market_odds (RecRequest.odds req) m) ->
  dict_get (market_key m) (RecOutput.stake_kelly (recommendation req)) = Some 0
  /\ (forall prob : option R,
        kelly_fraction prob (Some (or_0 (market_odds (RecRequest.odds req) m))) = 0)
  /\ (forall prob : option R, kelly_fraction prob None = 0)
  /\ (forall (prob : option R) (o : R),
        o - 1 <= 0 -> kelly_fraction prob (Some o) = 0).
Proof.
  intros H.
  assert (forall (prob : option R) (o : R),
             o - 1 <= 0 -> kelly_fraction prob (Some o) = 0) as Hk.
  { intros [p|] o Ho; [now apply kelly_fraction_no_net|simpl; lra]. }
  split; [|split; [|split]].
  - rewrite stake_kelly_lookup.
    rewrite kelly_fraction_no_net by now apply or_0_no_net.
    rewrite Rmult_0_r. f_equal. apply (round3_of_grid _ 0). lra.
  - intros prob. apply Hk. now apply or_0_no_net.
  - intros [p|]; simpl; lra.
  - exact Hk.
Qed.

Lemma stake_zero_without_net_odds_witness :
  no_net_odds (market_odds (RecRequest.odds busy_request) BTTS)
  /\ dict_get "btts" (RecOutput.stake_kelly (recommendation busy_request)) = Some 0.
Proof.
  split; [exact I|].
  apply (stake_zero_without_net_odds busy_request BTTS).
  exact I.
Defined.

(** C8: for fixed odds o > 1 the Kelly fraction does not decrease when the
    probability grows, and for all arguments it lies in [0, 0.5]. *)
Theorem kelly_fraction_monotone_bounded :
  (forall o p1 p2 : R,
      1 < o -> p1 <= p2 ->
      kelly_fraction (Some p1) (Some o) <= kelly_fraction (Some p2) (Some o))
  /\ (forall prob odds : option R, 0 <= kelly_fraction prob odds <= 0.5).
Proof.
  split.
  - intros o p1 p2 Ho Hp.
    rewrite !kelly_fraction_positive_net by lra.
    apply clamp_le; [lra|]. apply kelly_raw_le; lra.
  - apply kelly_fraction_range.
Qed.

Lemma kelly_fraction_monotone_bounded_witness :
  1 < 2 /\ 0.4 <= 0.6
  /\ kelly_fraction (Some 0.4) (Some 2) <= kelly_fraction (Some 0.6) (Some 2).
Proof.
  split; [lra|]. split; [lra|].
  apply (proj1 kelly_fraction_monotone_bounded 2 0.4 0.6); lra.
Defined.

(** C9: every returned stake is at most 0.125 for over25 and goal_ht and at
    most 0.10 for btts, so it stays strictly below 0.5. *)
Theorem stake_kelly_bound (req : RecRequest.t) (m : Market) :
  exists v : R,
    dict_get (market_key m) (RecOutput.stake_kelly (recommendation req)) = Some v
    /\ 0 <= v <= stake_bound m /\ stake_bound m = safety_multiplier m * 0.5
    /\ stake_bound m < 0.5.
Proof.
  rewrite stake_kelly_lookup. eexists. split; [reflexivity|].
  set (k := kelly_fraction _ _).
  pose proof (kelly_fraction_range
    (Some (market_prob (heuristic_probs (RecRequest.stats req)) m))
    (Some (or_0 (market_odds (RecRequest.odds req) m)))) as Hk.
  fold k in Hk.
  destruct m; unfold safety_multiplier, stake_bound.
  - pose proof (round3_between 0 125 (0.25 * k)). lra.
  - pose proof (round3_between 0 125 (0.25 * k)). lra.
  - pose proof (round3_between 0 100 (0.20 * k)). lra.
Qed.

(** ** Expected value *)

(** C4: the expected value of a market is p * o - 1 when the probability and
    the market's odds are both present and is absent when the odds are; the
    handler's per-market values are those of [ev] at the model's probability,
    and [ev] is a total function of its two arguments.  The output keeps the
    absent ones absent and the present ones present, and for odds up to 1000
    gives them in thousandths, less than a thousandth from p * o - 1. *)
Theorem ev_present_or_null :
  (forall p o : R, ev (Some p) (Some o) = Some (p * o - 1))
  /\ (forall prob : option R, ev prob None = None)
  /\ (forall odds : option R, ev None odds = None)
  /\ (forall (base : Probs.t) (odds : OddsInput.t) (m : Market),
        dict_get (market_key m) (evs base odds) =
        Some match market_odds odds m with
             | Some o => Some (market_prob base m * o - 1)
             | None => None
             end)
  /\ (forall (req : RecRequest.t) (m : Market),
        match market_odds (RecRequest.odds req) m with
        | Some o =>
            exists v : R,
              dict_get (market_key m) (RecOutput.ev (recommendation req))
                = Some (Some v)
              /\ (Rabs o <= 1000 ->
                  (exists n : Z, v = IZR n / 1000)
                  /\ Rabs (v - (market_prob (heuristic_probs (RecRequest.stats req)) m
                                * o - 1))
                     < 0.001)
        | None =>
            dict_get (market_key m) (RecOutput.ev (recommendation req)) = Some None
        end).
Proof.
  split; [reflexivity|]. split; [now destruct prob|]. split; [reflexivity|].
  split.
  - intros base odds m. rewrite evs_lookup.
    destruct (market_odds odds m); reflexivity.
  - intros req m.
    assert (dict_get (market_key m) (RecOutput.ev (recommendation req)) =
            Some match market_odds (RecRequest.odds req) m with
                 | Some o =>
                     Some (round
                             (market_prob (heuristic_probs (RecRequest.stats req)) m
                              * o - 1) 3)
                 | None => None
                 end) as H.
    { destruct req as [s [o1 o2 o3 o4] ms am].
      destruct m; simpl; [destruct o1|destruct o2|destruct o3]; reflexivity. }
    destruct (market_odds (RecRequest.odds req) m) as [o|]; [|exact H].
    destruct (round3_close
                (market_prob (heuristic_probs (RecRequest.stats req)) m * o - 1))
      as [n [E Hn]].
    eexists. split; [exact H|]. intros _. rewrite E.
    split; [now exists n|exact Hn].
Qed.

(** ** The probability model *)

(** C2: each of the returned p_over25, p_goal_ht, p_btts and the three values
    of p_1x2 lies in [0.01, 0.95]; none is 0 or 1. *)
Theorem probabilities_in_range (req : RecRequest.t) :
  let out := recommendation req in
  let ok := fun v : R => 0.01 <= v <= 0.95 /\ v <> 0 /\ v <> 1 in
  ok (RecOutput.p_over25 out) /\ ok (RecOutput.p_goal_ht out)
  /\ ok (RecOutput.p_btts out)
  /\ dict_keys (RecOutput.p_1x2 out) = ["1"; "X"; "2"]
  /\ Forall ok (dict_values (RecOutput.p_1x2 out)).
Proof.
  assert (forall x, let v := round (clip01 x) 3 in
                    0.01 <= v <= 0.95 /\ v <> 0 /\ v <> 1) as Hok.
  { intros x v. pose proof (round3_clip01_bounds x). subst v. lra. }
  cbv zeta.
  split; [apply Hok|]. split; [apply Hok|]. split; [apply Hok|].
  split; [reflexivity|].
  change (dict_values (RecOutput.p_1x2 (recommendation req))) with
    (let '(p1, p2, p_draw) := normalized_1x2 (RecRequest.stats req) in
     [round (clip01 p1) 3; round (clip01 p_draw) 3; round (clip01 p2) 3]).
  destruct (normalized_1x2 (RecRequest.stats req)) as [[p1 p2] p_draw].
  repeat (apply Forall_cons; [apply Hok|]). apply Forall_nil.
Qed.

Lemma over_raw_hundredths (s : LiveStats.t) : exists k : Z, over_raw s = IZR k / 100.
Proof.
  unfold over_raw.
  destruct (xg_high (LiveStats.xg_sum s)).
  - exists (30 + 2 * LiveStats.shots_total s + 4 * LiveStats.shots_box s
            + 8 * LiveStats.big_chances s + 20)%Z.
    rewrite !plus_IZR, !mult_IZR. lra.
  - exists (30 + 2 * LiveStats.shots_total s + 4 * LiveStats.shots_box s
            + 8 * LiveStats.big_chances s)%Z.
    rewrite !plus_IZR, !mult_IZR. lra.
Qed.

Lemma xg_high_spec (xg : option R) :
  (if xg_high xg then 0.20 else 0.0) =
  match xg with
  | Some v => if Rleb 0.9 v then 0.20 else 0
  | None => 0
  end.
Proof.
  destruct xg as [v|]; simpl; [|lra].
  unfold truthy, Rleb.
  destruct (Req_dec_T v 0); destruct (Rle_dec 0.9 v); simpl; lra.
Qed.

(** C6: the over-2.5 probability is 0.30 + 0.02 shots_total + 0.04 shots_box
    + 0.08 big_chances + (0.20 if xg_sum is present and at least 0.9),
    clamped into [0.01, 0.95]; the rounding of the output leaves it as it
    is. *)
Theorem over25_formula (req : RecRequest.t) :
  Probs.over25 (heuristic_probs (RecRequest.stats req)) =
    over25_spec (RecRequest.stats req)
  /\ RecOutput.p_over25 (recommendation req) = over25_spec (RecRequest.stats req).
Proof.
  set (s := RecRequest.stats req).
  assert (Probs.over25 (heuristic_probs s) = over25_spec s) as H.
  { change (clip01 (over_raw s) = over25_spec s).
    rewrite clip01_clamp. unfold over25_spec, over_raw.
    now rewrite xg_high_spec. }
  split; [exact H|].
  change (round (Probs.over25 (heuristic_probs s)) 3 = over25_spec s).
  rewrite <- H. change (Probs.over25 (heuristic_probs s)) with (clip01 (over_raw s)).
  destruct (over_raw_hundredths s) as [k Hk].
  destruct (clip01_cases (over_raw s)) as [[_ ->]|[[_ ->]|[_ ->]]].
  - apply (round3_of_grid _ 10). lra.
  - apply (round3_of_grid _ (10 * k)). rewrite Hk, mult_IZR. lra.
  - apply (round3_of_grid _ 950). lra.
Qed.

(** ** The rationale *)

Lemma rationale_appends_fired (s : LiveStats.t) : rationale_appends s = fired s.
Proof.
  unfold rationale_appends, fired, rationale_rules.
  cbn [filter map fst snd].
  unfold rule_over25, rule_big_chance, rule_goal_ht, rule_btts.
  destruct ((9 <=? LiveStats.shots_total s)%Z && (5 <=? LiveStats.shots_box s)%Z);
    destruct (1 <=? LiveStats.big_chances s)%Z;
    destruct ((25 <=? LiveStats.minute s)%Z && (LiveStats.minute s <=? 35)%Z
              && (2 <=? LiveStats.corners s)%Z && (3 <=? LiveStats.shots_box s)%Z);
    destruct (Momentum_eqb (LiveStats.momentum s) balanced
              && (2 <=? LiveStats.shots_on s)%Z);
    reflexivity.
Qed.

(** C7: the rationale holds exactly the strings of the rules that fire, in
    the order rule 1, 2, 3, 4, each rule on its own; when none fires it is the
    one fallback string; it is never empty. *)
Theorem rationale_is_fired_rules (req : RecRequest.t) :
  let s := RecRequest.stats req in
  RecOutput.rationale (recommendation req) =
    match fired s with
    | [] => [msg_fallback]
    | _ :: _ => fired s
    end
  /\ fired s =
       (if rule_over25 s then [msg_over25] else [])
       ++ (if rule_big_chance s then [msg_big_chance] else [])
       ++ (if rule_goal_ht s then [msg_goal_ht] else [])
       ++ (if rule_btts s then [msg_btts] else [])
  /\ RecOutput.rationale (recommendation req) <> [].
Proof.
  cbv zeta. set (s := RecRequest.stats req).
  assert (RecOutput.rationale (recommendation req) =
          match fired s with [] => [msg_fallback] | _ :: _ => fired s end) as H.
  { change (list_or (rationale_appends s) [msg_fallback] = 
            match fired s with [] => [msg_fallback] | _ :: _ => fired s end).
    rewrite rationale_appends_fired. reflexivity. }
  split; [exact H|]. split.
  - unfold fired, rationale_rules. cbn [filter map fst snd].
    destruct (rule_over25 s), (rule_big_chance s), (rule_goal_ht s), (rule_btts s);
      reflexivity.
  - rewrite H. destruct (fired s); discriminate.
Qed.

(** ** The example of the live statistics *)

Lemma live_over25 (sh sa : Z) :
  Probs.over25
    (heuristic_probs (LiveStats.Build 27 sh sa 2 1 1 0 1 52 48 balanced (Some 0.25)))
  = 0.38.
Proof.
  set (s := LiveStats.Build _ _ _ _ _ _ _ _ _ _ _ _).
  change (clip01 (over_raw s) = 0.38).
  assert (over_raw s = 0.38) as ->.
  { unfold over_raw. rewrite xg_high_spec. cbn -[IZR Rleb].
    unfold Rleb. destruct (Rle_dec 0.9 0.25); lra. }
  destruct (clip01_cases 0.38) as [[? ?]|[[? ?]|[? ?]]]; lra.
Qed.

Lemma live_p_over25 (sh sa : Z) (odds : OddsInput.t) (selected : list string)
    (all : bool) :
  RecOutput.p_over25
    (recommendation
       (RecRequest.Build
          (LiveStats.Build 27 sh sa 2 1 1 0 1 52 48 balanced (Some 0.25))
          odds selected all))
  = 0.38.
Proof.
  change (round (Probs.over25 (heuristic_probs
            (LiveStats.Build 27 sh sa 2 1 1 0 1 52 48 balanced (Some 0.25)))) 3
          = 0.38).
  rewrite live_over25. apply (round3_of_grid _ 380). lra.
Qed.

(** C3, as amended: for minute 27, 2 shots, 1 in the box, 1 on target, no big
    chance, 1 corner, possession 52/48, balanced momentum, xg_sum 0.25 and no
    odds, p_over25 is 0.38 (0.30 + 0.04 + 0.04), the three ev entries are
    null, the three stakes are 0.0 and the rationale is the fallback message
    alone. *)
Theorem live_example (sh sa : Z) (selected : list string) (all : bool) :
  let req :=
    RecRequest.Build
      (LiveStats.Build 27 sh sa 2 1 1 0 1 52 48 balanced (Some 0.25))
      no_odds selected all in
  let out := recommendation req in
  RecOutput.p_over25 out = 0.38
  /\ RecOutput.ev out = [("over25", None); ("goal_ht", None); ("btts", None)]
  /\ RecOutput.stake_kelly out = [("over25", 0.0); ("goal_ht", 0.0); ("btts", 0.0)]
  /\ RecOutput.rationale out = [msg_fallback].
Proof.
  cbv zeta. split; [|split; [|split]].
  - apply live_p_over25.
  - reflexivity.
  - assert (forall c p, round (c * kelly_fraction (Some p) (Some (or_0 None))) 3 = 0.0)
      as Hz.
    { intros c p. rewrite kelly_fraction_no_net by (simpl; lra).
      rewrite Rmult_0_r. transitivity 0; [|lra]. apply (round3_of_grid _ 0). lra. }
    unfold recommendation, stakes, no_odds.
    cbn [RecOutput.stake_kelly RecRequest.odds OddsInput.over25 OddsInput.over05_ht
         OddsInput.btts].
    now rewrite !Hz.
  - reflexivity.
Qed.

(** C3, as the specification words it, fails on p_over25: the handler returns
    0.38 for the live statistics, a full 0.02 away from 0.36. *)
Lemma live_example_not_036 :
  RecOutput.p_over25 (recommendation live_request) = 0.38
  /\ ~ Rabs (RecOutput.p_over25 (recommendation live_request) - 0.36) < 0.02.
Proof.
  assert (RecOutput.p_over25 (recommendation live_request) = 0.38) as H
    by exact (live_p_over25 0 0 no_odds RecRequest.default_models_selected true).
  split; [exact H|]. rewrite H.
  replace (0.38 - 0.36) with 0.02 by lra.
  rewrite Rabs_pos_eq by lra. lra.
Qed.

(** ** Bounds for the exponential *)

Lemma scale_pos : 0 < IZR scale.
Proof. apply IZR_lt. reflexivity. Qed.

Lemma Zdiv_IZR_le (a b : Z) : (0 < b)%Z -> IZR (a / b) * IZR b <= IZR a.
Proof.
  intros Hb. rewrite <- mult_IZR. apply IZR_le.
  rewrite Z.mul_comm. now apply Z.mul_div_le.
Qed.

Lemma sq_down_sound (k : nat) : forall (m : Z) (x : R),
  (0 <= m)%Z -> IZR m / IZR scale <= exp x ->
  IZR (sq_down k m) / IZR scale <= exp (x * 2 ^ k).
Proof.
  induction k as [|k IH]; intros m x Hm Hx; simpl.
  - now rewrite Rmult_1_r.
  - replace (x * (2 * 2 ^ k)) with ((x + x) * 2 ^ k) by ring.
    pose proof scale_pos as HS.
    apply IH.
    + apply Z.div_pos; [nia|reflexivity].
    + rewrite exp_plus.
      pose proof (Zdiv_IZR_le (m * m) scale eq_refl) as Hq.
      rewrite mult_IZR in Hq.
      assert (0 <= IZR m / IZR scale) as Ha.
      { apply Rmult_le_pos; [now apply IZR_le|]. left. now apply Rinv_0_lt_compat. }
      apply Rle_trans with (IZR m / IZR scale * (IZR m / IZR scale)).
      * apply Rmult_le_reg_r with (IZR scale * IZR scale); [nra|].
        field_simplify; [|lra|lra]. nra.
      * apply Rmult_le_compat; assumption.
Qed.

Lemma exp_lower_sound (k : nat) (n d : Z) :
  (0 < d)%Z -> (0 <= exp_start k n d)%Z ->
  IZR (exp_lower k n d) / IZR scale <= exp (IZR n / IZR d).
Proof.
  intros Hd Hs. unfold exp_lower.
  pose proof scale_pos as HS.
  assert (0 < IZR d) as Hd' by now apply IZR_lt.
  assert (0 < 2 ^ k) as Hk by (apply pow_lt; lra).
  replace (IZR n / IZR d) with (IZR n / (IZR d * 2 ^ k) * 2 ^ k)
    by (field; lra).
  apply sq_down_sound; [assumption|].
  apply Rle_trans with (1 + IZR n / (IZR d * 2 ^ k)); [|apply exp_ineq1_le].
  unfold exp_start. rewrite plus_IZR.
  assert (0 < d * 2 ^ Z.of_nat k)%Z as Hdk by (apply Z.mul_pos_pos; [lia|apply Z.pow_pos_nonneg; lia]).
  pose proof (Zdiv_IZR_le (n * scale) (d * 2 ^ Z.of_nat k) Hdk) as Hq.
  rewrite !mult_IZR in Hq.
  change 2%Z with (Z.of_nat 2) in Hq at 1.
  replace (IZR (2 ^ Z.of_nat k)) with (2 ^ k) in Hq
    by (now rewrite pow_IZR).
  set (q := IZR (n * scale / (d * 2 ^ Z.of_nat k))) in *.
  assert (q <= IZR n * IZR scale / (IZR d * 2 ^ k)) as Hq'.
  { apply Rmult_le_reg_r with (IZR d * 2 ^ k); [nra|].
    replace (IZR n * IZR scale / (IZR d * 2 ^ k) * (IZR d * 2 ^ k))
      with (IZR n * IZR scale) by (field; lra).
    exact Hq. }
  apply Rmult_le_reg_r with (IZR scale); [assumption|].
  replace ((IZR scale + q) / IZR scale * IZR scale) with (IZR scale + q) by (field; lra).
  replace ((1 + IZR n / (IZR d * 2 ^ k)) * IZR scale)
    with (IZR scale + IZR n * IZR scale / (IZR d * 2 ^ k)) by (field; lra).
  lra.
Qed.

Lemma exp_gt_sound (k : nat) (n d a c : Z) :
  exp_gt_check k n d a c = true -> IZR a / IZR c < exp (IZR n / IZR d).
Proof.
  unfold exp_gt_check. rewrite !andb_true_iff, !Z.ltb_lt, Z.leb_le.
  intros [[[Hd Hc] Hs] Hlt].
  pose proof (exp_lower_sound k n d Hd Hs) as HL.
  pose proof scale_pos as HS.
  assert (0 < IZR c) as Hc' by now apply IZR_lt.
  apply IZR_lt in Hlt. rewrite !mult_IZR in Hlt.
  apply Rlt_le_trans with (IZR (exp_lower k n d) / IZR scale); [|assumption].
  apply Rmult_lt_reg_r with (IZR c * IZR scale); [nra|].
  replace (IZR a / IZR c * (IZR c * IZR scale)) with (IZR a * IZR scale) by (field; lra).
  replace (IZR (exp_lower k n d) / IZR scale * (IZR c * IZR scale))
    with (IZR c * IZR (exp_lower k n d)) by (field; lra).
  assumption.
Qed.

Lemma exp_lt_sound (k : nat) (n d b c : Z) :
  exp_lt_check k n d b c = true -> exp (IZR n / IZR d) < IZR b / IZR c.
Proof.
  unfold exp_lt_check. rewrite !andb_true_iff, !Z.ltb_lt, Z.leb_le.
  intros [[[[Hd Hc] Hs] HL0] Hlt].
  pose proof (exp_lower_sound k (- n) d Hd Hs) as HL.
  pose proof scale_pos as HS.
  assert (0 < IZR c) as Hc' by now apply IZR_lt.
  assert (0 < IZR d) as Hd' by now apply IZR_lt.
  apply IZR_lt in HL0.
  apply IZR_lt in Hlt. rewrite !mult_IZR in Hlt.
  replace (IZR (- n) / IZR d) with (- (IZR n / IZR d)) in HL
    by (rewrite opp_IZR; field; lra).
  rewrite exp_Ropp in HL.
  set (E := exp (IZR n / IZR d)) in *.
  set (L := IZR (exp_lower k (- n) d)) in *.
  assert (0 < E) as HE by apply exp_pos.
  assert (L * E <= IZR scale) as H1.
  { apply Rmult_le_reg_r with (/ E * / IZR scale).
    - apply Rmult_lt_0_compat; now apply Rinv_0_lt_compat.
    - replace (L * E * (/ E * / IZR scale)) with (L / IZR scale) by (field; lra).
      replace (IZR scale * (/ E * / IZR scale)) with (/ E) by (field; lra).
      assumption. }
  apply Rmult_lt_reg_r with (IZR c * L); [nra|].
  replace (IZR b / IZR c * (IZR c * L)) with (IZR b * L) by (field; lra).
  nra.
Qed.

Lemma exp5_gt : 14773 / 100 < exp 5.
Proof.
  replace 5 with (IZR 5 / IZR 1) by lra.
  replace (14773 / 100) with (IZR 14773 / IZR 100) by lra.
  apply (exp_gt_sound 24). vm_compute. reflexivity.
Qed.

Lemma exp5_lt : exp 5 < 149.
Proof.
  replace 5 with (IZR 5 / IZR 1) by lra.
  replace 149 with (IZR 149 / IZR 1) by lra.
  apply (exp_lt_sound 24). vm_compute. reflexivity.
Qed.

(** ** The logistic function *)

Lemma sigmoid_range (x : R) : 0 < sigmoid x < 1.
Proof.
  unfold sigmoid. pose proof (exp_pos (- x)) as He.
  split.
  - apply Rdiv_lt_0_compat; lra.
  - apply Rmult_lt_reg_r with (1 + exp (- x)); [lra|].
    replace (1 / (1 + exp (- x)) * (1 + exp (- x))) with 1 by (field; lra). lra.
Qed.

Lemma sigmoid_lt (x c : R) : 1 < c * (1 + exp (- x)) -> sigmoid x < c.
Proof.
  intros H. unfold sigmoid. pose proof (exp_pos (- x)) as He.
  apply Rmult_lt_reg_r with (1 + exp (- x)); [lra|].
  replace (1 / (1 + exp (- x)) * (1 + exp (- x))) with 1 by (field; lra). lra.
Qed.

Lemma sigmoid_gt (x c : R) : c * (1 + exp (- x)) < 1 -> c < sigmoid x.
Proof.
  intros H. unfold sigmoid. pose proof (exp_pos (- x)) as He.
  apply Rmult_lt_reg_r with (1 + exp (- x)); [lra|].
  replace (1 / (1 + exp (- x)) * (1 + exp (- x))) with 1 by (field; lra). lra.
Qed.

(** Down to 0 per cent of possession the strength stays above 1/150. *)
Lemma sigmoid_floor (x : R) : -5 <= x -> 1 / 150 < sigmoid x.
Proof.
  intros Hx. apply sigmoid_gt.
  assert (exp (- x) <= exp 5) as He.
  { destruct (Rle_lt_or_eq_dec (- x) 5 ltac:(lra)) as [Hlt|Heq].
    - left. now apply exp_increasing.
    - rewrite Heq. lra. }
  pose proof exp5_lt. lra.
Qed.

Lemma possession_arg (h : Z) : (0 <= h)%Z -> -5 <= IZR (h - 50) / 10.
Proof. intros H. apply IZR_le in H. rewrite minus_IZR. lra. Qed.

Lemma div_lt (a t c : R) : 0 < t -> a < c * t -> a / t < c.
Proof.
  intros Ht H. apply Rmult_lt_reg_r with t; [assumption|].
  replace (a / t * t) with a by (field; lra). assumption.
Qed.

Lemma div_gt (a t c : R) : 0 < t -> c * t < a -> c < a / t.
Proof.
  intros Ht H. apply Rmult_lt_reg_r with t; [assumption|].
  replace (a / t * t) with a by (field; lra). assumption.
Qed.

Lemma clip01_below_ceiling (p : R) : p < 0.95 -> clip01 p = max 0.01 p /\ p <= clip01 p.
Proof.
  intros H. unfold clip01, max, min, Rmax, Rmin.
  destruct (Rle_dec 0.95 p); [lra|]. destruct (Rle_dec 0.01 p); split; lra.
Qed.

Lemma round3_clip01_nearest (n : Z) (p : R) :
  0.01 <= p <= 0.95 -> IZR n - 1 / 2 < p * 1000 < IZR n + 1 / 2 ->
  round (clip01 p) 3 = IZR n / 1000.
Proof.
  intros Hp Hn.
  destruct (clip01_cases p) as [[? _]|[[_ ->]|[? _]]]; try lra.
  now apply round3_nearest.
Qed.

Lemma round3_clip01_floor (p : R) : p < 0.01 -> round (clip01 p) 3 = 0.01.
Proof.
  intros Hp.
  destruct (clip01_cases p) as [[_ ->]|[[? _]|[? _]]]; try lra.
  apply (round3_of_grid _ 10). lra.
Qed.

(** The normalized strengths, with the logistic values named. *)
Lemma normalized_1x2_eq (s : LiveStats.t) :
  let s1 := sigmoid (IZR (LiveStats.possession_home s - 50) / 10) in
  let s2 := sigmoid (IZR (LiveStats.possession_away s - 50) / 10) in
  normalized_1x2 s =
  (s1 / (s1 + s2 + 0.20), s2 / (s1 + s2 + 0.20), 0.20 / (s1 + s2 + 0.20)).
Proof. reflexivity. Qed.

Lemma oneXtwo_eq (s : LiveStats.t) :
  Probs.oneXtwo (heuristic_probs s) =
  let '(p1, p2, p_draw) := normalized_1x2 s in
  [("1", clip01 p1); ("X", clip01 p_draw); ("2", clip01 p2)].
Proof.
  unfold heuristic_probs. now destruct (normalized_1x2 s) as [[p1 p2] p_draw].
Qed.

Lemma p_1x2_eq (req : RecRequest.t) :
  RecOutput.p_1x2 (recommendation req) =
  let '(p1, p2, p_draw) := normalized_1x2 (RecRequest.stats req) in
  [("1", round (clip01 p1) 3); ("X", round (clip01 p_draw) 3);
   ("2", round (clip01 p2) 3)].
Proof.
  unfold recommendation, heuristic_probs.
  now destruct (normalized_1x2 (RecRequest.stats req)) as [[p1 p2] p_draw].
Qed.

(** Possession 0 against 100: the home strength falls under the floor. *)
Lemma lopsided_strengths :
  let s1 := sigmoid (IZR (0 - 50) / 10) in
  let s2 := sigmoid (IZR (100 - 50) / 10) in
  0.00666 < s1 < 0.00673 /\ 0.99327 < s2 < 0.99334.
Proof.
  cbv zeta.
  replace (IZR (0 - 50) / 10) with (- (5)) by (rewrite minus_IZR; lra).
  replace (IZR (100 - 50) / 10) with 5 by (rewrite minus_IZR; lra).
  pose proof exp5_gt as Hlo. pose proof exp5_lt as Hhi.
  assert (0.00671 < exp (- (5)) < 0.00677) as [Hn1 Hn2].
  { rewrite exp_Ropp. split.
    - apply Rmult_lt_reg_r with (exp 5); [lra|].
      replace (/ exp 5 * exp 5) with 1 by (field; lra). lra.
    - apply Rmult_lt_reg_r with (exp 5); [lra|].
      replace (/ exp 5 * exp 5) with 1 by (field; lra). lra. }
  repeat split.
  - apply sigmoid_gt. rewrite Ropp_involutive. lra.
  - apply sigmoid_lt. rewrite Ropp_involutive. lra.
  - apply sigmoid_gt. lra.
  - apply sigmoid_lt. lra.
Qed.

Lemma exp_m22_bounds : 0.1108030 < exp (- (IZR (72 - 50) / 10)) < 0.1108033.
Proof.
  replace (- (IZR (72 - 50) / 10)) with (IZR (-22) / IZR 10)
    by (rewrite minus_IZR; lra).
  split.
  - replace 0.1108030 with (IZR 1108030 / IZR 10000000) by lra.
    apply (exp_gt_sound 30). vm_compute. reflexivity.
  - replace 0.1108033 with (IZR 1108033 / IZR 10000000) by lra.
    apply (exp_lt_sound 30). vm_compute. reflexivity.
Qed.

Lemma exp_21_bounds : 8.166168 < exp (- (IZR (29 - 50) / 10)) < 8.166172.
Proof.
  replace (- (IZR (29 - 50) / 10)) with (IZR 21 / IZR 10)
    by (rewrite minus_IZR; lra).
  split.
  - replace 8.166168 with (IZR 8166168 / IZR 1000000) by lra.
    apply (exp_gt_sound 30). vm_compute. reflexivity.
  - replace 8.166172 with (IZR 8166172 / IZR 1000000) by lra.
    apply (exp_lt_sound 30). vm_compute. reflexivity.
Qed.

(** Possession 72 against 29. *)
Lemma uneven_strengths :
  let s1 := sigmoid (IZR (72 - 50) / 10) in
  let s2 := sigmoid (IZR (29 - 50) / 10) in
  0.900249 < s1 < 0.900251 /\ 0.109096 < s2 < 0.109098.
Proof.
  cbv zeta.
  pose proof exp_m22_bounds as [H1 H2]. pose proof exp_21_bounds as [H3 H4].
  repeat split.
  - apply sigmoid_gt. lra.
  - apply sigmoid_lt. lra.
  - apply sigmoid_gt. lra.
  - apply sigmoid_lt. lra.
Qed.

Lemma clipped_1x2_sum (s : LiveStats.t) :
  (0 <= LiveStats.possession_home s)%Z ->
  (0 <= LiveStats.possession_away s)%Z ->
  let '(p1, p2, p_draw) := normalized_1x2 s in
  1 <= clip01 p1 + clip01 p_draw + clip01 p2.
Proof.
  intros Hh Ha. rewrite normalized_1x2_eq. cbv zeta.
  pose proof (sigmoid_range (IZR (LiveStats.possession_home s - 50) / 10)) as R1.
  pose proof (sigmoid_range (IZR (LiveStats.possession_away s - 50) / 10)) as R2.
  pose proof (sigmoid_floor _ (possession_arg _ Hh)) as F1.
  pose proof (sigmoid_floor _ (possession_arg _ Ha)) as F2.
  set (s1 := sigmoid (IZR (LiveStats.possession_home s - 50) / 10)) in *.
  set (s2 := sigmoid (IZR (LiveStats.possession_away s - 50) / 10)) in *.
  assert (0 < s1 + s2 + 0.20) as HT by lra.
  assert (s1 / (s1 + s2 + 0.20) < 0.95) as B1 by (apply div_lt; lra).
  assert (s2 / (s1 + s2 + 0.20) < 0.95) as B2 by (apply div_lt; lra).
  assert (0.20 / (s1 + s2 + 0.20) < 0.95) as B3 by (apply div_lt; lra).
  destruct (clip01_below_ceiling _ B1) as [_ L1].
  destruct (clip01_below_ceiling _ B2) as [_ L2].
  destruct (clip01_below_ceiling _ B3) as [_ L3].
  assert (s1 / (s1 + s2 + 0.20) + 0.20 / (s1 + s2 + 0.20)
          + s2 / (s1 + s2 + 0.20) = 1) as Hsum by (field; lra).
  lra.
Qed.

(** Three clipped values that sum to 1 or more still sum to 0.999 or more
    once each is rounded to thousandths. *)
Lemma rounded_sum_at_least_0999 (a b c : R) :
  1 <= a + b + c -> 0.999 <= total [round a 3; round b 3; round c 3].
Proof.
  intros Hsum. unfold total. cbn [fold_right].
  unfold round. rewrite pow10_3.
  pose proof (round_half_even_error (a * 1000)) as [_ E1].
  pose proof (round_half_even_error (b * 1000)) as [_ E2].
  pose proof (round_half_even_error (c * 1000)) as [_ E3].
  set (n1 := round_half_even (a * 1000)) in *.
  set (n2 := round_half_even (b * 1000)) in *.
  set (n3 := round_half_even (c * 1000)) in *.
  assert (998 < n1 + n2 + n3)%Z as Hn.
  { apply lt_IZR. rewrite !plus_IZR. lra. }
  assert (999 <= n1 + n2 + n3)%Z as Hn' by lia.
  apply IZR_le in Hn'. rewrite !plus_IZR in Hn'. lra.
Qed.

(** ** The 1X2 distribution *)

(** C10, as amended: with both possessions in [0, 100] each normalized 1X2
    value is strictly below 0.95 before clamping, so the clamp is only the
    0.01 floor and the clipped values sum to no less than the normalized ones;
    the returned values, rounded to three decimals, sum to at least 0.999, and
    to strictly more than 1.0 at possession 0 against 100, where they are
    0.01, 0.167 and 0.828. *)
Theorem one_x_two_clipped_sum :
  (forall req : RecRequest.t,
      let s := RecRequest.stats req in
      (0 <= LiveStats.possession_home s <= 100)%Z ->
      (0 <= LiveStats.possession_away s <= 100)%Z ->
      let '(p1, p2, p_draw) := normalized_1x2 s in
      p1 < 0.95 /\ p2 < 0.95 /\ p_draw < 0.95
      /\ Probs.oneXtwo (heuristic_probs s) =
           [("1", max 0.01 p1); ("X", max 0.01 p_draw); ("2", max 0.01 p2)]
      /\ total [p1; p_draw; p2]
         <= total (dict_values (Probs.oneXtwo (heuristic_probs s)))
      /\ 0.999 <= total (dict_values (RecOutput.p_1x2 (recommendation req))))
  /\ 1 < total (dict_values (Probs.oneXtwo (heuristic_probs (poss_stats 0 100))))
  /\ RecOutput.p_1x2 (recommendation (poss_request 0 100)) =
       [("1", 0.01); ("X", 0.167); ("2", 0.828)]
  /\ 1 < total (dict_values (RecOutput.p_1x2 (recommendation (poss_request 0 100)))).
Proof.
  split; [|split].
  - intros req s [Hh _] [Ha _].
    assert (0.999 <= total (dict_values (RecOutput.p_1x2 (recommendation req))))
      as Hround.
    { pose proof (clipped_1x2_sum _ Hh Ha) as Hsum.
      rewrite p_1x2_eq. fold s.
      destruct (normalized_1x2 s) as [[p1 p2] p_draw].
      now apply rounded_sum_at_least_0999. }
    revert Hround. generalize (total (dict_values (RecOutput.p_1x2 (recommendation req)))).
    intros tot Hround.
    rewrite oneXtwo_eq, normalized_1x2_eq. cbv zeta.
    pose proof (sigmoid_range (IZR (LiveStats.possession_home s - 50) / 10)) as R1.
    pose proof (sigmoid_range (IZR (LiveStats.possession_away s - 50) / 10)) as R2.
    pose proof (sigmoid_floor _ (possession_arg _ Hh)) as F1.
    pose proof (sigmoid_floor _ (possession_arg _ Ha)) as F2.
    set (s1 := sigmoid (IZR (LiveStats.possession_home s - 50) / 10)) in *.
    set (s2 := sigmoid (IZR (LiveStats.possession_away s - 50) / 10)) in *.
    assert (0 < s1 + s2 + 0.20) as HT by lra.
    assert (s1 / (s1 + s2 + 0.20) < 0.95) as B1 by (apply div_lt; lra).
    assert (s2 / (s1 + s2 + 0.20) < 0.95) as B2 by (apply div_lt; lra).
    assert (0.20 / (s1 + s2 + 0.20) < 0.95) as B3 by (apply div_lt; lra).
    destruct (clip01_below_ceiling _ B1) as [E1 L1].
    destruct (clip01_below_ceiling _ B2) as [E2 L2].
    destruct (clip01_below_ceiling _ B3) as [E3 L3].
    split; [exact B1|]. split; [exact B2|]. split; [exact B3|]. split; [|split].
    + now rewrite E1, E2, E3.
    + unfold dict_values, total. cbn [map snd fold_right]. lra.
    + exact Hround.
  - pose proof lopsided_strengths as [[A1 A2] [A3 A4]].
    rewrite oneXtwo_eq, normalized_1x2_eq. cbv zeta.
    change (LiveStats.possession_home (poss_stats 0 100)) with 0%Z.
    change (LiveStats.possession_away (poss_stats 0 100)) with 100%Z.
    cbv zeta in A1, A2, A3, A4.
    set (s1 := sigmoid (IZR (0 - 50) / 10)) in *.
    set (s2 := sigmoid (IZR (100 - 50) / 10)) in *.
    assert (0 < s1 + s2 + 0.20) as HT by lra.
    assert (s1 / (s1 + s2 + 0.20) < 0.01) as B1 by (apply div_lt; lra).
    assert (s2 / (s1 + s2 + 0.20) < 0.95) as B2 by (apply div_lt; lra).
    assert (0.20 / (s1 + s2 + 0.20) < 0.95) as B3 by (apply div_lt; lra).
    destruct (clip01_cases (s1 / (s1 + s2 + 0.20))) as [[_ E1]|[[? _]|[? _]]];
      try lra.
    destruct (clip01_below_ceiling _ B2) as [_ L2].
    destruct (clip01_below_ceiling _ B3) as [_ L3].
    unfold dict_values, total. cbn [map snd fold_right]. rewrite E1.
    assert (s1 / (s1 + s2 + 0.20) + 0.20 / (s1 + s2 + 0.20)
            + s2 / (s1 + s2 + 0.20) = 1) as Hsum by (field; lra).
    lra.
  - pose proof lopsided_strengths as [[A1 A2] [A3 A4]].
    assert (RecOutput.p_1x2 (recommendation (poss_request 0 100)) =
            [("1", 0.01); ("X", 0.167); ("2", 0.828)]) as Hout.
    { rewrite p_1x2_eq, normalized_1x2_eq. cbv zeta.
      change (LiveStats.possession_home (RecRequest.stats (poss_request 0 100)))
        with 0%Z.
      change (LiveStats.possession_away (RecRequest.stats (poss_request 0 100)))
        with 100%Z.
      cbv zeta in A1, A2, A3, A4.
      set (s1 := sigmoid (IZR (0 - 50) / 10)) in *.
      set (s2 := sigmoid (IZR (100 - 50) / 10)) in *.
      assert (0 < s1 + s2 + 0.20) as HT by lra.
      assert (s1 / (s1 + s2 + 0.20) < 0.01) as B1 by (apply div_lt; lra).
      assert (0.8275 < s2 / (s1 + s2 + 0.20)) as B2 by (apply div_gt; lra).
      assert (s2 / (s1 + s2 + 0.20) < 0.8285) as B2' by (apply div_lt; lra).
      assert (0.1665 < 0.20 / (s1 + s2 + 0.20)) as B3 by (apply div_gt; lra).
      assert (0.20 / (s1 + s2 + 0.20) < 0.1675) as B3' by (apply div_lt; lra).
      rewrite (round3_clip01_floor _ B1).
      rewrite (round3_clip01_nearest 167) by lra.
      rewrite (round3_clip01_nearest 828) by lra.
      repeat f_equal; lra. }
    split; [exact Hout|]. rewrite Hout.
    unfold dict_values, total. cbn [map snd fold_right]. lra.
Qed.

Lemma one_x_two_clipped_sum_witness :
  (0 <= 52 <= 100)%Z /\ (0 <= 48 <= 100)%Z
  /\ 0.999 <= total (dict_values (RecOutput.p_1x2 (recommendation live_request))).
Proof.
  split; [lia|]. split; [lia|].
  pose proof (proj1 one_x_two_clipped_sum live_request) as H.
  cbv zeta in H. rewrite normalized_1x2_eq in H. cbv zeta in H.
  apply H; simpl; lia.
Defined.

(** C10, as the specification words it, fails for the returned values: at
    possession 72 against 29 the rounded output is 0.744, 0.165 and 0.09,
    which sum to 0.999. *)
Lemma one_x_two_rounded_sum_below_1 :
  (0 <= 72 <= 100)%Z /\ (0 <= 29 <= 100)%Z
  /\ RecOutput.p_1x2 (recommendation (poss_request 72 29)) =
       [("1", 0.744); ("X", 0.165); ("2", 0.09)]
  /\ total (dict_values (RecOutput.p_1x2 (recommendation (poss_request 72 29))))
     = 0.999
  /\ ~ 1 <= total (dict_values (RecOutput.p_1x2 (recommendation (poss_request 72 29)))).
Proof.
  split; [lia|]. split; [lia|].
  pose proof uneven_strengths as [[A1 A2] [A3 A4]].
  assert (RecOutput.p_1x2 (recommendation (poss_request 72 29)) =
          [("1", 0.744); ("X", 0.165); ("2", 0.09)]) as Hout.
  { rewrite p_1x2_eq, normalized_1x2_eq. cbv zeta.
    change (LiveStats.possession_home (RecRequest.stats (poss_request 72 29)))
      with 72%Z.
    change (LiveStats.possession_away (RecRequest.stats (poss_request 72 29)))
      with 29%Z.
    cbv zeta in A1, A2, A3, A4.
    set (s1 := sigmoid (IZR (72 - 50) / 10)) in *.
    set (s2 := sigmoid (IZR (29 - 50) / 10)) in *.
    assert (0 < s1 + s2 + 0.20) as HT by lra.
    assert (0.7435 < s1 / (s1 + s2 + 0.20)) as B1 by (apply div_gt; lra).
    assert (s1 / (s1 + s2 + 0.20) < 0.7445) as B1' by (apply div_lt; lra).
    assert (0.0895 < s2 / (s1 + s2 + 0.20)) as B2 by (apply div_gt; lra).
    assert (s2 / (s1 + s2 + 0.20) < 0.0905) as B2' by (apply div_lt; lra).
    assert (0.1645 < 0.20 / (s1 + s2 + 0.20)) as B3 by (apply div_gt; lra).
    assert (0.20 / (s1 + s2 + 0.20) < 0.1655) as B3' by (apply div_lt; lra).
    rewrite (round3_clip01_nearest 744) by lra.
    rewrite (round3_clip01_nearest 165) by lra.
    rewrite (round3_clip01_nearest 90) by lra.
    repeat f_equal; lra. }
  split; [exact Hout|]. rewrite Hout.
  unfold dict_values, total. cbn [map snd fold_right]. split; lra.
Qed.

(** * Further properties of the code *)

(** ** The logistic function, continued *)

(** On exact values the logistic values of x and of -x add up to 1. *)
Lemma sigmoid_symmetry (x : R) : sigmoid x + sigmoid (- x) = 1.
Proof.
  unfold sigmoid. rewrite Ropp_involutive, exp_Ropp.
  pose proof (exp_pos x) as He.
  assert (0 < / exp x) as Hi by now apply Rinv_0_lt_compat.
  field. repeat split; lra.
Qed.

Lemma sigmoid_le (x y : R) : x <= y -> sigmoid x <= sigmoid y.
Proof.
  intros H. unfold sigmoid.
  pose proof (exp_pos (- x)) as Hx. pose proof (exp_pos (- y)) as Hy.
  assert (exp (- y) <= exp (- x)) as He.
  { destruct H as [H|H]; [left; apply exp_increasing; lra|subst; lra]. }
  unfold Rdiv. rewrite !Rmult_1_l.
  apply Rinv_le_contravar; lra.
Qed.

(** X2: where it returns, from -700 on, the logistic function never
    decreases; its values are positive and at most 1, and it is 1/2 at 0. *)
Theorem sigmoid_increasing (x y : R) :
  -700 <= x -> x <= y ->
  sigmoid x <= sigmoid y /\ 0 < sigmoid x /\ sigmoid y <= 1 /\ sigmoid 0 = 1 / 2.
Proof.
  intros _ H.
  pose proof (sigmoid_range x) as [Hx _]. pose proof (sigmoid_range y) as [_ Hy].
  split; [now apply sigmoid_le|]. split; [exact Hx|]. split; [lra|].
  unfold sigmoid. rewrite Ropp_0, exp_0. lra.
Qed.

Lemma sigmoid_increasing_witness :
  -700 <= -1 /\ -1 <= 2 /\ sigmoid (-1) <= sigmoid 2.
Proof.
  split; [lra|]. split; [lra|].
  apply (sigmoid_increasing (-1) 2); lra.
Defined.

(** ** The 1X2 distribution, continued *)

Lemma complementary_strengths (h a : Z) :
  (h + a = 100)%Z ->
  sigmoid (IZR (h - 50) / 10) + sigmoid (IZR (a - 50) / 10) = 1.
Proof.
  intros H.
  replace (IZR (a - 50) / 10) with (- (IZR (h - 50) / 10)).
  - apply sigmoid_symmetry.
  - assert (a = 100 - h)%Z as -> by lia. rewrite !minus_IZR. lra.
Qed.

(** X4: when the two possessions lie in [0, 100] and add up to 100 the
    returned draw probability is 0.167, whatever the split. *)
Theorem draw_when_possession_complete (req : RecRequest.t) :
  (0 <= LiveStats.possession_home (RecRequest.stats req) <= 100)%Z ->
  (LiveStats.possession_home (RecRequest.stats req)
   + LiveStats.possession_away (RecRequest.stats req) = 100)%Z ->
  dict_get "X" (RecOutput.p_1x2 (recommendation req)) = Some 0.167.
Proof.
  intros _ H. pose proof (complementary_strengths _ _ H) as Hs.
  rewrite p_1x2_eq, normalized_1x2_eq. cbv zeta.
  set (s1 := sigmoid (IZR (LiveStats.possession_home (RecRequest.stats req) - 50) / 10))
    in *.
  set (s2 := sigmoid (IZR (LiveStats.possession_away (RecRequest.stats req) - 50) / 10))
    in *.
  assert (0.20 / (s1 + s2 + 0.20) = 1 / 6) as -> by (rewrite Hs; lra).
  cbn [dict_get String.eqb Ascii.eqb Bool.eqb].
  f_equal. rewrite (round3_clip01_nearest 167); lra.
Qed.

Lemma draw_when_possession_complete_witness :
  (0 <= 52 <= 100)%Z /\ (52 + 48 = 100)%Z
  /\ dict_get "X" (RecOutput.p_1x2 (recommendation live_request)) = Some 0.167.
Proof.
  split; [lia|]. split; [reflexivity|].
  apply (draw_when_possession_complete live_request); [simpl; lia|reflexivity].
Defined.

(** X5: exchanging the two possessions exchanges the home and the away
    probability and leaves the draw and the three market probabilities as they
    are. *)
Theorem swap_possession_swaps_sides (s : LiveStats.t) :
  let b := heuristic_probs s in
  let b' := heuristic_probs (swap_possession s) in
  dict_get "1" (Probs.oneXtwo b') = dict_get "2" (Probs.oneXtwo b)
  /\ dict_get "2" (Probs.oneXtwo b') = dict_get "1" (Probs.oneXtwo b)
  /\ dict_get "X" (Probs.oneXtwo b') = dict_get "X" (Probs.oneXtwo b)
  /\ Probs.over25 b' = Probs.over25 b
  /\ Probs.goal_ht b' = Probs.goal_ht b
  /\ Probs.btts b' = Probs.btts b.
Proof.
  cbv zeta. rewrite !oneXtwo_eq, !normalized_1x2_eq. cbv zeta.
  change (LiveStats.possession_home (swap_possession s))
    with (LiveStats.possession_away s).
  change (LiveStats.possession_away (swap_possession s))
    with (LiveStats.possession_home s).
  set (s1 := sigmoid (IZR (LiveStats.possession_home s - 50) / 10)).
  set (s2 := sigmoid (IZR (LiveStats.possession_away s - 50) / 10)).
  replace (s2 + s1 + 0.20) with (s1 + s2 + 0.20) by ring.
  repeat split; reflexivity.
Qed.

Lemma clip01_le (x y : R) : x <= y -> clip01 x <= clip01 y.
Proof.
  intros H. rewrite !clip01_clamp. apply clamp_le; [lra|assumption].
Qed.

(** X6: with both possessions in [0, 100], the side with at least as much
    possession has at least as high a returned probability. *)
Theorem more_possession_more_probability (req : RecRequest.t) :
  (0 <= LiveStats.possession_away (RecRequest.stats req))%Z ->
  (LiveStats.possession_away (RecRequest.stats req)
   <= LiveStats.possession_home (RecRequest.stats req))%Z ->
  (LiveStats.possession_home (RecRequest.stats req) <= 100)%Z ->
  exists v1 v2 : R,
    dict_get "1" (RecOutput.p_1x2 (recommendation req)) = Some v1
    /\ dict_get "2" (RecOutput.p_1x2 (recommendation req)) = Some v2
    /\ v2 <= v1.
Proof.
  intros _ H _. rewrite p_1x2_eq, normalized_1x2_eq. cbv zeta.
  assert (sigmoid (IZR (LiveStats.possession_away (RecRequest.stats req) - 50) / 10)
          <= sigmoid (IZR (LiveStats.possession_home (RecRequest.stats req) - 50) / 10))
    as Hs.
  { apply sigmoid_le. apply IZR_le in H. rewrite !minus_IZR. lra. }
  pose proof (sigmoid_range
    (IZR (LiveStats.possession_home (RecRequest.stats req) - 50) / 10)) as [R1 _].
  pose proof (sigmoid_range
    (IZR (LiveStats.possession_away (RecRequest.stats req) - 50) / 10)) as [R2 _].
  set (s1 := sigmoid (IZR (LiveStats.possession_home (RecRequest.stats req) - 50) / 10))
    in *.
  set (s2 := sigmoid (IZR (LiveStats.possession_away (RecRequest.stats req) - 50) / 10))
    in *.
  do 2 eexists. split; [reflexivity|]. split; [reflexivity|].
  apply round3_le, clip01_le.
  assert (0 < / (s1 + s2 + 0.20)) as Hi by (apply Rinv_0_lt_compat; lra).
  unfold Rdiv. apply Rmult_le_compat_r; lra.
Qed.

Lemma more_possession_more_probability_witness :
  (0 <= 48)%Z /\ (48 <= 52)%Z /\ (52 <= 100)%Z
  /\ exists v1 v2 : R,
       dict_get "1" (RecOutput.p_1x2 (recommendation live_request)) = Some v1
       /\ dict_get "2" (RecOutput.p_1x2 (recommendation live_request)) = Some v2
       /\ v2 <= v1.
Proof.
  split; [lia|]. split; [lia|]. split; [lia|].
  apply (more_possession_more_probability live_request); simpl; lia.
Defined.

(** ** The market probabilities, continued *)

Lemma round3_clip01_hundredths (x : R) (k : Z) :
  x = IZR k / 100 -> round (clip01 x) 3 = clip01 x.
Proof.
  intros Hk.
  destruct (clip01_cases x) as [[_ ->]|[[_ ->]|[_ ->]]].
  - apply (round3_of_grid _ 10). lra.
  - apply (round3_of_grid _ (10 * k)). rewrite Hk, mult_IZR. lra.
  - apply (round3_of_grid _ 950). lra.
Qed.

Lemma goal_ht_raw_hundredths (s : LiveStats.t) :
  exists k : Z, goal_ht_raw s = IZR k / 100.
Proof.
  unfold goal_ht_raw.
  destruct (negb (Momentum_eqb (LiveStats.momentum s) balanced)).
  - exists (15 + 3 * LiveStats.shots_box s + 3 * LiveStats.corners s + 7)%Z.
    rewrite !plus_IZR, !mult_IZR. lra.
  - exists (15 + 3 * LiveStats.shots_box s + 3 * LiveStats.corners s)%Z.
    rewrite !plus_IZR, !mult_IZR. lra.
Qed.

Lemma btts_raw_hundredths (s : LiveStats.t) :
  exists k : Z, btts_raw s = IZR k / 100.
Proof.
  unfold btts_raw.
  destruct (Momentum_eqb (LiveStats.momentum s) balanced).
  - exists (25 + 5 + 2 * LiveStats.shots_on s)%Z.
    rewrite !plus_IZR, !mult_IZR. lra.
  - exists (25 + 2 * LiveStats.shots_on s)%Z.
    rewrite !plus_IZR, !mult_IZR. lra.
Qed.

(** X7: the returned first-half-goal probability is 0.15 + 0.03 shots_box +
    0.03 corners, plus 0.07 unless the momentum is balanced, clamped into
    [0.01, 0.95]; the returned btts probability is 0.25 + 0.02 shots_on, plus
    0.05 when the momentum is balanced, clamped alike; the rounding to three
    decimals changes neither. *)
Theorem goal_ht_btts_formulas (req : RecRequest.t) :
  let s := RecRequest.stats req in
  RecOutput.p_goal_ht (recommendation req) =
    clamp 0.01 0.95
      (0.15 + 0.03 * IZR (LiveStats.shots_box s) + 0.03 * IZR (LiveStats.corners s)
       + match LiveStats.momentum s with balanced => 0 | _ => 0.07 end)
  /\ RecOutput.p_btts (recommendation req) =
    clamp 0.01 0.95
      (0.25 + match LiveStats.momentum s with balanced => 0.05 | _ => 0 end
       + 0.02 * IZR (LiveStats.shots_on s)).
Proof.
  cbv zeta. set (s := RecRequest.stats req). split.
  - change (round (clip01 (goal_ht_raw s)) 3 = clamp 0.01 0.95
      (0.15 + 0.03 * IZR (LiveStats.shots_box s) + 0.03 * IZR (LiveStats.corners s)
       + match LiveStats.momentum s with balanced => 0 | _ => 0.07 end)).
    destruct (goal_ht_raw_hundredths s) as [k Hk].
    rewrite (round3_clip01_hundredths _ k Hk), clip01_clamp. f_equal.
    unfold goal_ht_raw. destruct (LiveStats.momentum s); simpl; lra.
  - change (round (clip01 (btts_raw s)) 3 = clamp 0.01 0.95
      (0.25 + match LiveStats.momentum s with balanced => 0.05 | _ => 0 end
       + 0.02 * IZR (LiveStats.shots_on s))).
    destruct (btts_raw_hundredths s) as [k Hk].
    rewrite (round3_clip01_hundredths _ k Hk), clip01_clamp. f_equal.
    unfold btts_raw. destruct (LiveStats.momentum s); simpl; lra.
Qed.

(** X8: with the momentum and xg_sum unchanged, statistics with at least as
    many shots, shots in the box, big chances, corners and shots on target
    never give a lower returned probability on any of the three markets. *)
Theorem more_pressure_never_lowers (req req' : RecRequest.t) :
  let s := RecRequest.stats req in
  let s' := RecRequest.stats req' in
  (LiveStats.shots_total s <= LiveStats.shots_total s')%Z ->
  (LiveStats.shots_box s <= LiveStats.shots_box s')%Z ->
  (LiveStats.big_chances s <= LiveStats.big_chances s')%Z ->
  (LiveStats.corners s <= LiveStats.corners s')%Z ->
  (LiveStats.shots_on s <= LiveStats.shots_on s')%Z ->
  LiveStats.momentum s = LiveStats.momentum s' ->
  LiveStats.xg_sum s = LiveStats.xg_sum s' ->
  RecOutput.p_over25 (recommendation req) <= RecOutput.p_over25 (recommendation req')
  /\ RecOutput.p_goal_ht (recommendation req) <= RecOutput.p_goal_ht (recommendation req')
  /\ RecOutput.p_btts (recommendation req) <= RecOutput.p_btts (recommendation req').
Proof.
  cbv zeta. intros Ht Hb Hc Hk Ho Hm Hx.
  apply IZR_le in Ht, Hb, Hc, Hk, Ho.
  split; [|split].
  - change (round (clip01 (over_raw (RecRequest.stats req))) 3
            <= round (clip01 (over_raw (RecRequest.stats req'))) 3).
    apply round3_le, clip01_le. unfold over_raw. rewrite Hx. lra.
  - change (round (clip01 (goal_ht_raw (RecRequest.stats req))) 3
            <= round (clip01 (goal_ht_raw (RecRequest.stats req'))) 3).
    apply round3_le, clip01_le. unfold goal_ht_raw. rewrite Hm. lra.
  - change (round (clip01 (btts_raw (RecRequest.stats req))) 3
            <= round (clip01 (btts_raw (RecRequest.stats req'))) 3).
    apply round3_le, clip01_le. unfold btts_raw. rewrite Hm. lra.
Qed.

Lemma more_pressure_never_lowers_witness :
  let req' :=
    RecRequest.Build (LiveStats.Build 27 0 0 6 3 2 1 4 52 48 balanced (Some 0.25))
      no_odds RecRequest.default_models_selected true in
  (2 <= 6)%Z /\ (1 <= 3)%Z /\ (0 <= 1)%Z
  /\ RecOutput.p_over25 (recommendation live_request)
     <= RecOutput.p_over25 (recommendation req').
Proof.
  cbv zeta. split; [lia|]. split; [lia|]. split; [lia|].
  apply (more_pressure_never_lowers live_request
           (RecRequest.Build
              (LiveStats.Build 27 0 0 6 3 2 1 4 52 48 balanced (Some 0.25))
              no_odds RecRequest.default_models_selected true));
    simpl; try lia; reflexivity.
Defined.

(** X9: for statistics with no negative count the 0.01 floor is never
    reached: the returned probabilities are at least 0.30 for over 2.5, 0.15
    for the first-half goal and 0.25 for btts. *)
Theorem market_probability_floors (req : RecRequest.t) :
  let s := RecRequest.stats req in
  (0 <= LiveStats.shots_total s)%Z ->
  (0 <= LiveStats.shots_box s)%Z ->
  (0 <= LiveStats.big_chances s)%Z ->
  (0 <= LiveStats.corners s)%Z ->
  (0 <= LiveStats.shots_on s)%Z ->
  0.30 <= RecOutput.p_over25 (recommendation req)
  /\ 0.15 <= RecOutput.p_goal_ht (recommendation req)
  /\ 0.25 <= RecOutput.p_btts (recommendation req).
Proof.
  cbv zeta. intros Ht Hb Hc Hk Ho.
  apply IZR_le in Ht, Hb, Hc, Hk, Ho.
  split; [|split].
  - change (0.30 <= round (clip01 (over_raw (RecRequest.stats req))) 3).
    assert (0.30 <= over_raw (RecRequest.stats req)) as Hr.
    { unfold over_raw. destruct (xg_high _); lra. }
    pose proof (clip01_bounds (over_raw (RecRequest.stats req))) as Hc1.
    destruct (clip01_cases (over_raw (RecRequest.stats req)))
      as [[? _]|[[_ E]|[_ E]]]; [lra| |];
      pose proof (round3_between 300 950 (clip01 (over_raw (RecRequest.stats req))));
      lra.
  - change (0.15 <= round (clip01 (goal_ht_raw (RecRequest.stats req))) 3).
    assert (0.15 <= goal_ht_raw (RecRequest.stats req)) as Hr.
    { unfold goal_ht_raw. destruct (negb _); lra. }
    pose proof (clip01_bounds (goal_ht_raw (RecRequest.stats req))) as Hc1.
    destruct (clip01_cases (goal_ht_raw (RecRequest.stats req)))
      as [[? _]|[[_ E]|[_ E]]]; [lra| |];
      pose proof (round3_between 150 950 (clip01 (goal_ht_raw (RecRequest.stats req))));
      lra.
  - change (0.25 <= round (clip01 (btts_raw (RecRequest.stats req))) 3).
    assert (0.25 <= btts_raw (RecRequest.stats req)) as Hr.
    { unfold btts_raw. destruct (Momentum_eqb _ _); lra. }
    pose proof (clip01_bounds (btts_raw (RecRequest.stats req))) as Hc1.
    destruct (clip01_cases (btts_raw (RecRequest.stats req)))
      as [[? _]|[[_ E]|[_ E]]]; [lra| |];
      pose proof (round3_between 250 950 (clip01 (btts_raw (RecRequest.stats req))));
      lra.
Qed.

Lemma market_probability_floors_witness :
  (0 <= 2)%Z /\ (0 <= 1)%Z /\ (0 <= 0)%Z
  /\ 0.30 <= RecOutput.p_over25 (recommendation live_request).
Proof.
  split; [lia|]. split; [lia|]. split; [lia|].
  apply (market_probability_floors live_request); simpl; lia.
Defined.

(** ** Expected value and stake together *)

Lemma kelly_raw_ev (p o : R) :
  0 < o - 1 -> kelly_raw p o = (p * o - 1) / ((o - 1) * (o - 1)).
Proof. intros H. unfold kelly_raw, kelly_edge. field. lra. Qed.

Lemma kelly_raw_sign (p o : R) :
  0 < o - 1 ->
  (0 < kelly_raw p o <-> 0 < p * o - 1) /\ (kelly_raw p o <= 0 <-> p * o - 1 <= 0).
Proof.
  intros H. rewrite kelly_raw_ev by assumption.
  assert (0 < (o - 1) * (o - 1)) as Hq by now apply Rmult_lt_0_compat.
  assert (0 < / ((o - 1) * (o - 1))) as Hi by now apply Rinv_0_lt_compat.
  unfold Rdiv. split; split; intros H1.
  - destruct (Rlt_dec 0 (p * o - 1)) as [|Hn]; [assumption|].
    assert ((p * o - 1) * / ((o - 1) * (o - 1)) <= 0 * / ((o - 1) * (o - 1)))
      by (apply Rmult_le_compat_r; lra).
    lra.
  - now apply Rmult_lt_0_compat.
  - destruct (Rle_dec (p * o - 1) 0) as [|Hn]; [assumption|].
    assert (0 < (p * o - 1) * / ((o - 1) * (o - 1)))
      by (apply Rmult_lt_0_compat; lra).
    lra.
  - assert ((p * o - 1) * / ((o - 1) * (o - 1)) <= 0 * / ((o - 1) * (o - 1)))
      by (apply Rmult_le_compat_r; lra).
    lra.
Qed.

Lemma kelly_fraction_zero_of_nonpositive_ev (p : R) (odds : option R) :
  match ev (Some p) odds with
  | Some e => e <= 0
  | None => True
  end ->
  kelly_fraction (Some p) (Some (or_0 odds)) = 0.
Proof.
  destruct odds as [o|]; simpl ev; intros He.
  - destruct (Rle_dec (o - 1) 0) as [Hb|Hb].
    + apply kelly_fraction_no_net. apply or_0_no_net. simpl. now right.
    + assert (0 < o - 1) as Hb' by lra.
      rewrite or_0_of_positive_net, kelly_fraction_positive_net by assumption.
      apply (kelly_raw_sign p o Hb') in He.
      unfold clamp, Rltb.
      destruct (Rlt_dec (kelly_raw p o) 0.0); [lra|].
      destruct (Rlt_dec 0.5 (kelly_raw p o)); lra.
  - apply kelly_fraction_no_net. simpl. lra.
Qed.

(** X11: a market whose expected value is absent, zero or negative gets the
    stake 0.0. *)
Theorem no_stake_without_positive_ev (req : RecRequest.t) (m : Market) :
  (forall e : R,
      dict_get (market_key m)
        (evs (heuristic_probs (RecRequest.stats req)) (RecRequest.odds req))
      = Some (Some e) -> e <= 0) ->
  dict_get (market_key m) (RecOutput.stake_kelly (recommendation req)) = Some 0.
Proof.
  intros H. rewrite stake_kelly_lookup.
  rewrite kelly_fraction_zero_of_nonpositive_ev.
  - rewrite Rmult_0_r. f_equal. apply (round3_of_grid _ 0). lra.
  - rewrite evs_lookup in H.
    destruct (ev _ _) as [e|]; [|exact I].
    now apply H.
Qed.

Lemma no_stake_without_positive_ev_witness :
  dict_get "over25" (evs (heuristic_probs live_stats)
                       (RecRequest.odds even_money_request))
    = Some (Some (Probs.over25 (heuristic_probs live_stats) * 2 - 1))
  /\ Probs.over25 (heuristic_probs live_stats) * 2 - 1 <= 0
  /\ dict_get "over25" (RecOutput.stake_kelly (recommendation even_money_request))
     = Some 0.
Proof.
  pose proof (live_over25 0 0) as Hp. fold live_stats in Hp.
  split; [reflexivity|]. split; [rewrite Hp; lra|].
  apply (no_stake_without_positive_ev even_money_request Over25).
  intros e He. injection He as <-.
  change (Probs.over25 (heuristic_probs live_stats) * 2 - 1 <= 0).
  rewrite Hp. lra.
Defined.

(** X12: a price so short that even the 0.95 ceiling cannot pay, o * 0.95 <=
    1, gets the stake 0.0 on every market, whatever the statistics. *)
Theorem short_price_never_staked (req : RecRequest.t) (m : Market) (o : R) :
  market_odds (RecRequest.odds req) m = Some o ->
  o * 0.95 <= 1 ->
  dict_get (market_key m) (RecOutput.stake_kelly (recommendation req)) = Some 0.
Proof.
  intros Ho Hs. rewrite stake_kelly_lookup.
  rewrite kelly_fraction_zero_of_nonpositive_ev.
  - rewrite Rmult_0_r. f_equal. apply (round3_of_grid _ 0). lra.
  - rewrite Ho. simpl ev. rewrite heuristic_probs_market.
    set (x := match m with Over25 => _ | GoalHT => _ | BTTS => _ end).
    pose proof (clip01_bounds x) as [Hlo Hhi].
    destruct (Rle_dec o 0) as [Hn|Hn].
    + assert (clip01 x * o <= 0); [|lra].
      replace (clip01 x * o) with (- (clip01 x * - o)) by ring.
      assert (0 <= clip01 x * - o) by (apply Rmult_le_pos; lra). lra.
    + assert (clip01 x * o <= 0.95 * o) by (apply Rmult_le_compat_r; lra). lra.
Qed.

Lemma short_price_never_staked_witness :
  let req :=
    RecRequest.Build busy_stats (OddsInput.Build (Some 1.05) None None None)
      RecRequest.default_models_selected true in
  market_odds (RecRequest.odds req) Over25 = Some 1.05
  /\ 1.05 * 0.95 <= 1
  /\ dict_get "over25" (RecOutput.stake_kelly (recommendation req)) = Some 0.
Proof.
  cbv zeta. split; [reflexivity|]. split; [lra|].
  apply (short_price_never_staked
           (RecRequest.Build busy_stats (OddsInput.Build (Some 1.05) None None None)
              RecRequest.default_models_selected true) Over25 1.05).
  - reflexivity.
  - lra.
Defined.

(** X13: once the expected value reaches half the square of the net odds the
    Kelly fraction is capped at 0.5 and the stake is the market's maximum,
    0.125 for over25 and goal_ht and 0.10 for btts. *)
Theorem stake_saturates (req : RecRequest.t) (m : Market) (o : R) :
  market_odds (RecRequest.odds req) m = Some o ->
  1 < o ->
  0.5 * ((o - 1) * (o - 1))
    <= market_prob (heuristic_probs (RecRequest.stats req)) m * o - 1 ->
  dict_get (market_key m) (RecOutput.stake_kelly (recommendation req))
  = Some (stake_bound m).
Proof.
  intros Ho H1 He. rewrite stake_kelly_lookup, Ho.
  rewrite or_0_of_positive_net, kelly_fraction_positive_net by lra.
  rewrite kelly_raw_ev by lra.
  set (p := market_prob _ m) in *.
  assert (0 < (o - 1) * (o - 1)) as Hq by (apply Rmult_lt_0_compat; lra).
  assert (0.5 <= (p * o - 1) / ((o - 1) * (o - 1))) as Hk.
  { apply Rmult_le_reg_r with ((o - 1) * (o - 1)); [assumption|].
    replace ((p * o - 1) / ((o - 1) * (o - 1)) * ((o - 1) * (o - 1)))
      with (p * o - 1) by (field; lra).
    assumption. }
  assert (clamp 0.0 0.5 ((p * o - 1) / ((o - 1) * (o - 1))) = 0.5) as ->.
  { unfold clamp, Rltb.
    destruct (Rlt_dec ((p * o - 1) / ((o - 1) * (o - 1))) 0.0); [lra|].
    destruct (Rlt_dec 0.5 ((p * o - 1) / ((o - 1) * (o - 1)))); lra. }
  f_equal. destruct m; unfold safety_multiplier, stake_bound.
  - transitivity (round 0.125 3); [f_equal; lra|]. apply (round3_of_grid _ 125). lra.
  - transitivity (round 0.125 3); [f_equal; lra|]. apply (round3_of_grid _ 125). lra.
  - transitivity (round 0.10 3); [f_equal; lra|]. apply (round3_of_grid _ 100). lra.
Qed.

Lemma stake_saturates_witness :
  market_odds (RecRequest.odds busy_request) Over25 = Some 1.5
  /\ 1 < 1.5
  /\ dict_get "over25" (RecOutput.stake_kelly (recommendation busy_request))
     = Some 0.125.
Proof.
  split; [reflexivity|]. split; [lra|].
  apply (stake_saturates busy_request Over25 1.5).
  - reflexivity.
  - lra.
  - change (0.5 * ((1.5 - 1) * (1.5 - 1))
            <= Probs.over25 (heuristic_probs busy_stats) * 1.5 - 1).
    rewrite busy_over25. lra.
Defined.

(** ** The rationale, continued *)

Lemma In_decide (m : string) (l : list string) (b : bool) :
  existsb (String.eqb m) l = b -> (In m l <-> b = true).
Proof.
  intros <-. rewrite existsb_exists. split.
  - intros H. exists m. split; [assumption|apply String.eqb_refl].
  - intros [x [Hx E]]. apply String.eqb_eq in E. now subst.
Qed.

Lemma rationale_rules_fired (req : RecRequest.t) :
  let s := RecRequest.stats req in
  RecOutput.rationale (recommendation req) =
  rationale_for (rule_over25 s) (rule_big_chance s) (rule_goal_ht s) (rule_btts s).
Proof.
  cbv zeta. set (s := RecRequest.stats req).
  change (list_or (rationale_appends s) [msg_fallback] =
          rationale_for (rule_over25 s) (rule_big_chance s) (rule_goal_ht s)
            (rule_btts s)).
  rewrite rationale_appends_fired.
  unfold rationale_for, fired, rationale_rules. cbn [filter map fst snd].
  destruct (rule_over25 s), (rule_big_chance s), (rule_goal_ht s), (rule_btts s);
    reflexivity.
Qed.

Lemma rationale_for_members (b1 b2 b3 b4 : bool) :
  let r := rationale_for b1 b2 b3 b4 in
  (In msg_over25 r <-> b1 = true)
  /\ (In msg_big_chance r <-> b2 = true)
  /\ (In msg_goal_ht r <-> b3 = true)
  /\ (In msg_btts r <-> b4 = true)
  /\ (In msg_fallback r <-> negb (b1 || b2 || b3 || b4) = true).
Proof.
  destruct b1, b2, b3, b4; cbv zeta;
    repeat split; try (apply In_decide; reflexivity);
    try (apply (In_decide _ _ false); reflexivity).
Qed.

Lemma rationale_for_nodup (b1 b2 b3 b4 : bool) :
  NoDup (rationale_for b1 b2 b3 b4)
  /\ (1 <= List.length (rationale_for b1 b2 b3 b4) <= 4)%nat.
Proof.
  assert (forall (m : string) l, existsb (String.eqb m) l = false -> ~ In m l) as Hn.
  { intros m l H Hin. apply (In_decide m l false H) in Hin. discriminate. }
  destruct b1, b2, b3, b4; (split; [|simpl; lia]);
    repeat (apply NoDup_cons; [apply Hn; reflexivity|]); apply NoDup_nil.
Qed.

Lemma rule_over25_iff (s : LiveStats.t) :
  rule_over25 s = true <->
  (9 <= LiveStats.shots_total s /\ 5 <= LiveStats.shots_box s)%Z.
Proof. unfold rule_over25. rewrite andb_true_iff, !Z.leb_le. tauto. Qed.

Lemma rule_goal_ht_iff (s : LiveStats.t) :
  rule_goal_ht s = true <->
  (25 <= LiveStats.minute s <= 35 /\ 2 <= LiveStats.corners s
   /\ 3 <= LiveStats.shots_box s)%Z.
Proof. unfold rule_goal_ht. rewrite !andb_true_iff, !Z.leb_le. tauto. Qed.

Lemma rule_btts_iff (s : LiveStats.t) :
  rule_btts s = true <->
  LiveStats.momentum s = balanced /\ (2 <= LiveStats.shots_on s)%Z.
Proof.
  unfold rule_btts. rewrite andb_true_iff, Z.leb_le.
  destruct (LiveStats.momentum s); simpl; intuition discriminate.
Qed.

(** X14: each of the four rationale strings is in the returned list exactly
    when its own thresholds are met, the fallback string exactly when none
    are; the list has no repeated string and between one and four entries. *)
Theorem rationale_membership (req : RecRequest.t) :
  let s := RecRequest.stats req in
  let r := RecOutput.rationale (recommendation req) in
  (In msg_over25 r <->
     (9 <= LiveStats.shots_total s /\ 5 <= LiveStats.shots_box s)%Z)
  /\ (In msg_big_chance r <-> (1 <= LiveStats.big_chances s)%Z)
  /\ (In msg_goal_ht r <->
        (25 <= LiveStats.minute s <= 35 /\ 2 <= LiveStats.corners s
         /\ 3 <= LiveStats.shots_box s)%Z)
  /\ (In msg_btts r <->
        LiveStats.momentum s = balanced /\ (2 <= LiveStats.shots_on s)%Z)
  /\ (In msg_fallback r <->
        ~ In msg_over25 r /\ ~ In msg_big_chance r /\ ~ In msg_goal_ht r
        /\ ~ In msg_btts r)
  /\ NoDup r /\ (1 <= List.length r <= 4)%nat.
Proof.
  cbv zeta. rewrite rationale_rules_fired. cbv zeta.
  set (s := RecRequest.stats req).
  pose proof (rationale_for_members (rule_over25 s) (rule_big_chance s)
                (rule_goal_ht s) (rule_btts s)) as H.
  cbv zeta in H. destruct H as [H1 [H2 [H3 [H4 H5]]]].
  pose proof (rationale_for_nodup (rule_over25 s) (rule_big_chance s)
                (rule_goal_ht s) (rule_btts s)) as [Hd Hl].
  split; [now rewrite H1, rule_over25_iff|].
  split; [rewrite H2; unfold rule_big_chance; now rewrite Z.leb_le|].
  split; [now rewrite H3, rule_goal_ht_iff|].
  split; [now rewrite H4, rule_btts_iff|].
  split; [|split; assumption].
  rewrite H1, H2, H3, H4, H5.
  destruct (rule_over25 s), (rule_big_chance s), (rule_goal_ht s), (rule_btts s);
    simpl; intuition discriminate.
Qed.

(** X15: a rationale string vouches for its market: with the over-2.5 string
    and no negative big-chance count p_over25 is at least 0.68, with the
    first-half string p_goal_ht is at least 0.30, with the btts string p_btts
    is at least 0.34. *)
Theorem rationale_backs_probability (req : RecRequest.t) :
  let s := RecRequest.stats req in
  let out := recommendation req in
  (In msg_over25 (RecOutput.rationale out) -> (0 <= LiveStats.big_chances s)%Z ->
   0.68 <= RecOutput.p_over25 out)
  /\ (In msg_goal_ht (RecOutput.rationale out) -> 0.30 <= RecOutput.p_goal_ht out)
  /\ (In msg_btts (RecOutput.rationale out) -> 0.34 <= RecOutput.p_btts out).
Proof.
  cbv zeta. rewrite rationale_rules_fired. cbv zeta.
  set (s := RecRequest.stats req).
  pose proof (rationale_for_members (rule_over25 s) (rule_big_chance s)
                (rule_goal_ht s) (rule_btts s)) as H.
  cbv zeta in H. destruct H as [H1 [_ [H3 [H4 _]]]].
  assert (forall x (lo : Z), IZR lo / 1000 <= x -> (lo <= 950)%Z ->
                             IZR lo / 1000 <= round (clip01 x) 3) as Hfloor.
  { intros x lo Hx Hlo. apply IZR_le in Hlo.
    pose proof (clip01_bounds x) as Hb.
    pose proof (round3_between lo 950 (clip01 x)) as Hr.
    destruct (clip01_cases x) as [[? E]|[[? E]|[? E]]]; rewrite E in *; lra. }
  split; [|split].
  - intros Hin Hbc. apply H1, rule_over25_iff in Hin. destruct Hin as [Ht Hb].
    apply IZR_le in Ht, Hb, Hbc.
    change (0.68 <= round (clip01 (over_raw s)) 3).
    replace 0.68 with (IZR 680 / 1000) by lra. apply Hfloor; [|lia].
    unfold over_raw. destruct (xg_high _); lra.
  - intros Hin. apply H3, rule_goal_ht_iff in Hin. destruct Hin as [_ [Hc Hb]].
    apply IZR_le in Hc, Hb.
    change (0.30 <= round (clip01 (goal_ht_raw s)) 3).
    replace 0.30 with (IZR 300 / 1000) by lra. apply Hfloor; [|lia].
    unfold goal_ht_raw. destruct (negb _); lra.
  - intros Hin. apply H4, rule_btts_iff in Hin. destruct Hin as [Hm Ho].
    apply IZR_le in Ho.
    change (0.34 <= round (clip01 (btts_raw s)) 3).
    replace 0.34 with (IZR 340 / 1000) by lra. apply Hfloor; [|lia].
    unfold btts_raw. rewrite Hm. simpl. lra.
Qed.

Lemma rationale_backs_probability_witness :
  In msg_over25 (RecOutput.rationale (recommendation busy_request))
  /\ (0 <= 1)%Z
  /\ 0.68 <= RecOutput.p_over25 (recommendation busy_request).
Proof.
  assert (In msg_over25 (RecOutput.rationale (recommendation busy_request))) as Hin
    by (left; reflexivity).
  split; [exact Hin|]. split; [lia|].
  apply (proj1 (rationale_backs_probability busy_request)); [exact Hin|simpl; lia].
Defined.

(** ** The tick stream *)

Lemma ticks_succ (fixture_id : string) (t : Z) (n : nat) :
  ticks fixture_id t (S n) =
  Tick.Build fixture_id (20 + t) "tick" :: ticks fixture_id (t + 1) n.
Proof.
  unfold ticks. rewrite <- cons_seq, <- seq_shift. cbn [map].
  rewrite map_map. f_equal.
  - f_equal. lia.
  - apply map_ext. intros k. f_equal. lia.
Qed.

Lemma stream_loop_completes (fixture_id : string) (n : nat) : forall t : Z,
  stream_loop fixture_id t (repeat completes n)
  = (ticks fixture_id t n, in_loop (t + Z.of_nat n)).
Proof.
  induction n as [|n IH]; intros t.
  - unfold ticks. cbn [repeat stream_loop seq map]. f_equal. f_equal. lia.
  - cbn [repeat stream_loop]. rewrite IH, ticks_succ. f_equal. f_equal. lia.
Qed.

Lemma stream_loop_raises (fixture_id : string) (n : nat) (rest : list Outcome) :
  forall t : Z,
  stream_loop fixture_id t (repeat completes n ++ raises :: rest)
  = (ticks fixture_id t (S n), returned (t + Z.of_nat n)).
Proof.
  induction n as [|n IH]; intros t.
  - unfold ticks. cbn [repeat app stream_loop seq map]. f_equal.
    + f_equal. f_equal. lia.
    + f_equal. lia.
  - cbn [repeat app stream_loop]. rewrite IH, (ticks_succ _ t (S n)).
    f_equal. f_equal. lia.
Qed.

Lemma stream_loop_cancelled (fixture_id : string) (n : nat) (rest : list Outcome) :
  forall t : Z,
  stream_loop fixture_id t (repeat completes n ++ cancelled :: rest)
  = (ticks fixture_id t (S n), propagated).
Proof.
  induction n as [|n IH]; intros t.
  - unfold ticks. cbn [repeat app stream_loop seq map]. f_equal.
    f_equal. f_equal. lia.
  - cbn [repeat app stream_loop]. now rewrite IH, (ticks_succ _ t (S n)).
Qed.

(** X16: after n successful sends and a failing one the handler has handed
    exactly the ticks with minutes 20, ..., 20 + n to the socket and sends
    nothing more; when the failure is an [Exception] it is swallowed and the
    handler returns, when it is another [BaseException], such as a
    cancellation, it propagates; while every send succeeds the handler stays
    in the loop; nothing raised by accept is caught. *)
Theorem stream_until_first_failure (fixture_id : string) (n : nat)
    (rest : list Outcome) :
  stream completes fixture_id (repeat completes n ++ raises :: rest)
    = (ticks fixture_id 0 (S n), returned (Z.of_nat n))
  /\ stream completes fixture_id (repeat completes n ++ cancelled :: rest)
    = (ticks fixture_id 0 (S n), propagated)
  /\ stream completes fixture_id (repeat completes n)
    = (ticks fixture_id 0 n, in_loop (Z.of_nat n))
  /\ stream raises fixture_id rest = ([], propagated)
  /\ stream cancelled fixture_id rest = ([], propagated).
Proof.
  split; [|split; [|split; [|split]]].
  - unfold stream. now rewrite stream_loop_raises.
  - unfold stream. now rewrite stream_loop_cancelled.
  - unfold stream. now rewrite stream_loop_completes.
  - reflexivity.
  - reflexivity.
Qed.

Lemma stream_loop_nth (fixture_id : string) (sends : list Outcome) :
  forall (t : Z) (k : nat) (p : Tick.t),
  nth_error (fst (stream_loop fixture_id t sends)) k = Some p ->
  p = Tick.Build fixture_id (20 + (t + Z.of_nat k)) "tick"
  /\ (k < List.length sends)%nat.
Proof.
  assert (forall a b : Tick.t, Some a = Some b -> a = b) as Hinj
    by (intros a b E; congruence).
  induction sends as [|[| |] sends IH]; intros t k p H.
  - destruct k; discriminate.
  - cbn [stream_loop] in H.
    destruct (stream_loop fixture_id (t + 1) sends) as [sent e] eqn:E.
    cbn [fst] in H. destruct k as [|k]; cbn [nth_error] in H.
    + apply Hinj in H. subst p. split; [f_equal; lia|cbn [List.length]; lia].
    + specialize (IH (t + 1)%Z k p). rewrite E in IH.
      destruct (IH H) as [-> Hk]. split; [f_equal; lia|cbn [List.length]; lia].
  - cbn [stream_loop fst] in H. destruct k as [|k]; cbn [nth_error] in H.
    + apply Hinj in H. subst p. split; [f_equal; lia|cbn [List.length]; lia].
    + destruct k; discriminate.
  - cbn [stream_loop fst] in H. destruct k as [|k]; cbn [nth_error] in H.
    + apply Hinj in H. subst p. split; [f_equal; lia|cbn [List.length]; lia].
    + destruct k; discriminate.
Qed.

(** X17: whatever the socket answers, the k-th payload handed to it (from 0)
    carries the handler's fixture id, the minute 20 + k and the event "tick",
    and there is at most one payload per answered send. *)
Theorem stream_tick_minutes (accept : Outcome) (fixture_id : string)
    (sends : list Outcome) (k : nat) (p : Tick.t) :
  nth_error (fst (stream accept fixture_id sends)) k = Some p ->
  p = Tick.Build fixture_id (20 + Z.of_nat k) "tick"
  /\ (k < List.length sends)%nat.
Proof.
  destruct accept; cbn [stream].
  - intros H. apply stream_loop_nth in H. exact H.
  - destruct k; discriminate.
  - destruct k; discriminate.
Qed.

Lemma stream_tick_minutes_witness :
  nth_error (fst (stream completes "1002" [completes; completes; raises; completes])) 2
    = Some (Tick.Build "1002" 22 "tick")
  /\ Tick.Build "1002" 22 "tick" = Tick.Build "1002" (20 + Z.of_nat 2) "tick".
Proof.
  split; [reflexivity|].
  apply (stream_tick_minutes completes "1002"
           [completes; completes; raises; completes] 2 (Tick.Build "1002" 22 "tick")).
  reflexivity.
Defined.

(** ** The rounded 1X2 distribution *)

(** X18: with no negative possession the three returned 1X2 values, rounded
    to three decimals, sum to at least 0.999: the rounding can take off one
    thousandth of the total and no more. *)
Theorem rounded_1x2_sum_at_least_0999 (req : RecRequest.t) :
  (0 <= LiveStats.possession_home (RecRequest.stats req))%Z ->
  (0 <= LiveStats.possession_away (RecRequest.stats req))%Z ->
  0.999 <= total (dict_values (RecOutput.p_1x2 (recommendation req))).
Proof.
  intros Hh Ha.
  pose proof (clipped_1x2_sum _ Hh Ha) as Hsum.
  rewrite p_1x2_eq.
  destruct (normalized_1x2 (RecRequest.stats req)) as [[p1 p2] p_draw].
  now apply rounded_sum_at_least_0999.
Qed.

Lemma rounded_1x2_sum_at_least_0999_witness :
  (0 <= 72)%Z /\ (0 <= 29)%Z
  /\ 0.999 <= total (dict_values (RecOutput.p_1x2 (recommendation (poss_request 72 29)))).
Proof.
  split; [lia|]. split; [lia|].
  apply (rounded_1x2_sum_at_least_0999 (poss_request 72 29)); simpl; lia.
Defined.
